(** * AI-Financial-News: the FastAPI glue of [app.py]

    A shallow embedding of [app.py]: the request schemas, the NewsAPI
    normalisation ([fetch_news], [/news]), the prompt assembly
    ([build_news_context], [build_prompt]) and the three handlers
    ([/analyze], [/news], [/suggest-questions]).

    Python values are modelled as they are at run time:
    - a [str] is a sequence of Unicode code points (not of bytes), so that
      [str.strip] and [str.split] treat the bullet U+2022 and the dashes
      U+2013 / U+2014 as one character each;
    - a decoded JSON payload is a [json] value whose objects are finite maps
      keyed by [str];
    - an exception is a value of [exn], and a handler runs in a small monad
      that records every outbound call next to its result. *)

From Stdlib Require Import ZArith NArith List Ascii String DecimalString.
From stdpp Require Import base option list gmap.
Import ListNotations.

Local Open Scope Z_scope.
Local Open Scope list_scope.

(** ** Python strings *)

Module PyStr.

(** One Unicode code point. *)
Definition char := N.
Definition str := list char.

(** An ASCII-only literal of the source, code point by code point. *)
Definition lit (s : string) : str :=
  map N_of_ascii (list_ascii_of_string s).

#[global] Arguments lit _ : simpl never.

Definition NL : char := 10%N.          (* "\n" *)
Definition EN_DASH : char := 8211%N.   (* U+2013 *)
Definition EM_DASH : char := 8212%N.   (* U+2014 *)
Definition BULLET : char := 8226%N.    (* U+2022 *)
Definition SPACE : char := 32%N.
Definition HYPHEN : char := 45%N.      (* "-" *)

(** [str(n)] for an [int]. *)
Definition str_of_int (n : Z) : str :=
  lit (NilZero.string_of_int (Z.to_int n)).

#[global] Arguments str_of_int _ : simpl never.

(** Truth value of a [str]: non-empty. *)
Definition truthy_str (s : str) : bool :=
  match s with [] => false | _ :: _ => true end.

(** [sep.join(parts)]. *)
Fixpoint join (sep : str) (parts : list str) : str :=
  match parts with
  | [] => []
  | [p] => p
  | p :: rest => p ++ sep ++ join sep rest
  end.

(** [s.split(c)] for a one-character separator: never the empty list. *)
Fixpoint split (c : char) (s : str) : list str :=
  match s with
  | [] => [[]]
  | x :: r =>
      if N.eqb x c then [] :: split c r
      else match split c r with
           | [] => [[x]]
           | h :: t => (x :: h) :: t
           end
  end.

(** [ch.isspace()]: the code points [str.strip()] removes. *)
Definition isspace (c : char) : bool :=
  ((9 <=? c) && (c <=? 13) || (28 <=? c) && (c <=? 32)
   || (c =? 133) || (c =? 160) || (c =? 5760)
   || (8192 <=? c) && (c <=? 8202)
   || (c =? 8232) || (c =? 8233) || (c =? 8239) || (c =? 8287)
   || (c =? 12288))%N.

Fixpoint lstrip_by (p : char -> bool) (s : str) : str :=
  match s with
  | [] => []
  | x :: r => if p x then lstrip_by p r else s
  end.

Definition rstrip_by (p : char -> bool) (s : str) : str :=
  rev (lstrip_by p (rev s)).

(** CPython strips from the left first, then from the right of what is left. *)
Definition strip_by (p : char -> bool) (s : str) : str :=
  rstrip_by p (lstrip_by p s).

(** [s.strip()]. *)
Definition strip (s : str) : str := strip_by isspace s.

(** [s.strip(chars)]. *)
Definition strip_chars (chars : str) (s : str) : str :=
  strip_by (fun c => existsb (N.eqb c) chars) s.

End PyStr.
Export PyStr.

(** ** Decoded JSON and Python exceptions *)

#[local] Set Warnings "-register-all".

(** What [response.json()] hands to the program.  Numbers are the integers;
    no function of [app.py] computes with a number of the provider. *)
Inductive json :=
| JNull
| JBool (b : bool)
| JNum (n : Z)
| JStr (s : str)
| JArr (items : list json)
| JObj (fields : gmap str json).

Inductive exn :=
| HTTPException (status_code : Z) (detail : str)
| AttributeError       (* [.get] on a value that is not a dict *)
| TypeError            (* iteration over a value that is not iterable *)
| External (message : str).   (* raised inside a client library *)

(** The results of Python's built-ins that [app.py] relies on without
    defining them: [repr] of a number-free scalar is written out in
    [py_str]; [repr] of a container and [date.strftime] are taken as they
    come. *)
Class Builtins := {
  py_repr : json -> str;
  strftime_Ymd : Z -> str;     (* [d.strftime("%Y-%m-%d")], [d] as an ordinal *)
}.

(** [str(v)], what an f-string inserts for [{v}]. *)
Definition py_str `{Builtins} (v : json) : str :=
  match v with
  | JStr s => s
  | JNull => lit "None"
  | JBool true => lit "True"
  | JBool false => lit "False"
  | JNum n => str_of_int n
  | JArr _ | JObj _ => py_repr v
  end.

(** Truth value of a decoded JSON value ([v or default]). *)
Definition truthy (v : json) : bool :=
  match v with
  | JNull => false
  | JBool b => b
  | JNum n => negb (n =? 0)
  | JStr s => truthy_str s
  | JArr l => match l with [] => false | _ => true end
  | JObj m => negb (bool_decide (m = ∅))
  end.

(** [str(e)] in [except Exception as e]; the two run-time errors stand for
    their own message. *)
Definition exn_str (e : exn) : str :=
  match e with
  | HTTPException _ d => d
  | AttributeError => lit "AttributeError"
  | TypeError => lit "TypeError"
  | External m => m
  end.

(** ** Fallible code and handlers *)

(** A computation that returns or raises. *)
Definition result (A : Type) : Type := exn + A.

#[global] Instance result_ret : MRet result := fun _ a => inr a.
#[global] Instance result_bind : MBind result := fun _ _ f m =>
  match m with inl e => inl e | inr a => f a end.
#[global] Instance result_fmap : FMap result := fun _ _ f m =>
  match m with inl e => inl e | inr a => inr (f a) end.

(** The arguments of [newsapi.get_everything]. *)
Record news_params := {
  np_q : str;
  np_language : str;
  np_from_param : option str;
  np_to : option str;
  np_sort_by : str;
  np_page : Z;
  np_page_size : Z;
}.

(** One [{"text": ...}] content part. *)
Record Part := { text : str }.

(** The argument of [model.generate_content]. *)
Inductive gen_input :=
| GenParts (parts : list Part)
| GenText (prompt : str).

(** An outbound call to one of the two providers. *)
Inductive call :=
| NewsCall (p : news_params)
| GeminiCall (g : gen_input).

(** What lies outside the process during one request: the clock and the
    two providers.  [generate_content] stands for the call followed by
    [resp.text]: the text, or the exception either of them raises. *)
Record World := {
  today : Z;
  get_everything : news_params -> result json;
  generate_content : gen_input -> result str;
}.

(** A handler: the outbound calls it made, in order, and how it ended. *)
Definition M (A : Type) : Type := (list call * result A)%type.

#[global] Instance M_ret : MRet M := fun _ a => ([], inr a).
#[global] Instance M_bind : MBind M := fun _ _ f m =>
  match m with
  | (t, inl e) => (t, inl e)
  | (t, inr a) => let '(t', r) := f a in (t ++ t', r)
  end.

Definition raise {A} (e : exn) : M A := ([], inl e).
Definition lift {A} (r : result A) : M A := ([], r).

(** [try: body except Exception as e: handler]. *)
Definition try_except {A} (body : M A) (handler : exn -> M A) : M A :=
  match body with
  | (t, inl e) => let '(t', r) := handler e in (t ++ t', r)
  | (t, inr a) => (t, inr a)
  end.

Definition calls {A} (m : M A) : list call := m.1.
Definition outcome {A} (m : M A) : result A := m.2.

Definition call_news (w : World) (p : news_params) : M json :=
  ([NewsCall p], get_everything w p).

Definition call_gemini (w : World) (g : gen_input) : M str :=
  ([GeminiCall g], generate_content w g).

Definition is_gemini_call (c : call) : bool :=
  match c with NewsCall _ => false | GeminiCall _ => true end.

(** The query strings sent to the news provider, in order. *)
Definition news_queries (t : list call) : list str :=
  omap (fun c => match c with NewsCall p => Some (np_q p) | _ => None end) t.

(** ** Dynamic access to decoded JSON *)

(** [v.get(k, default)]: only a dict has [.get]. *)
Definition py_get (v : json) (k : str) (default : json) : result json :=
  match v with
  | JObj m => inr (from_option id default (m !! k))
  | _ => inl AttributeError
  end.

(** The items a [for] loop or a comprehension draws from [v].  A dict yields
    its keys; their order plays no role below, where every key is a [str]. *)
Definition py_iter (v : json) : result (list json) :=
  match v with
  | JArr l => inr l
  | JStr s => inr (map (fun c => JStr [c]) s)
  | JObj m => inr (map (fun kv => JStr kv.1) (map_to_list m))
  | _ => inl TypeError
  end.

(** [v == s] for a string literal [s]. *)
Definition eq_str (v : json) (s : str) : bool :=
  match v with JStr s' => bool_decide (s' = s) | _ => false end.

(** ** Request schemas *)

Record InvestorProfile := {
  risiko : option str;
  horizon_bulan : option Z;        (* ge=1 *)
  fokus : option str;
}.

Record AnalyzeRequest := {
  pertanyaan : str;                (* required *)
  tickers : option (list str);
  kata_kunci : option str;
  hari_kebelakang : Z;             (* default 7, ge=1, le=30 *)
  bahasa : str;                    (* default "id" *)
  profil : option InvestorProfile;
}.

Record NewsQuery := {
  q : str;                         (* required *)
  dari : option str;
  sampai : option str;
  nq_bahasa : str;                 (* default "id" *)
  halaman : Z;                     (* default 1, ge=1, le=5 *)
}.

(** A request body before validation: every field is of the declared type
    and may be left out.  Bodies with a field of another type are outside
    the model. *)
Record RawAnalyzeRequest := {
  raw_pertanyaan : option str;
  raw_tickers : option (list str);
  raw_kata_kunci : option str;
  raw_hari_kebelakang : option Z;
  raw_bahasa : option str;
  raw_profil : option InvestorProfile;
}.

Record RawNewsQuery := {
  raw_q : option str;
  raw_dari : option str;
  raw_sampai : option str;
  raw_nq_bahasa : option str;
  raw_halaman : option Z;
}.

(** A violated constraint of a [Field(...)] declaration. *)
Inductive violation :=
| Missing (field : str)
| NotGe (field : str) (bound : Z)
| NotLe (field : str) (bound : Z).

(** [ge=lo] then [le=hi] on an integer field. *)
Definition check_range (field : str) (lo : Z) (hi : option Z) (v : Z)
  : list violation :=
  if v <? lo then [NotGe field lo]
  else match hi with
       | Some h => if h <? v then [NotLe field h] else []
       | None => []
       end.

Definition check_required {A} (field : str) (v : option A) : list violation :=
  match v with Some _ => [] | None => [Missing field] end.

Definition check_profile (p : option InvestorProfile) : list violation :=
  match p with
  | Some pr =>
      match horizon_bulan pr with
      | Some h => check_range (lit "horizon_bulan") 1 None h
      | None => []
      end
  | None => []
  end.

(** Validation of the body of [/analyze] against [AnalyzeRequest]: all the
    violations, or the request with its defaults filled in. *)
Definition validate_analyze (raw : RawAnalyzeRequest)
  : list violation + AnalyzeRequest :=
  let hari := default 7 (raw_hari_kebelakang raw) in
  let errs :=
    check_required (lit "pertanyaan") (raw_pertanyaan raw)
    ++ check_range (lit "hari_kebelakang") 1 (Some 30) hari
    ++ check_profile (raw_profil raw) in
  match raw_pertanyaan raw, errs with
  | Some p, [] =>
      inr {| pertanyaan := p;
             tickers := raw_tickers raw;
             kata_kunci := raw_kata_kunci raw;
             hari_kebelakang := hari;
             bahasa := default (lit "id") (raw_bahasa raw);
             profil := raw_profil raw |}
  | _, _ => inl errs
  end.

(** Validation of the body of [/news] against [NewsQuery]. *)
Definition validate_news (raw : RawNewsQuery) : list violation + NewsQuery :=
  let hal := default 1 (raw_halaman raw) in
  let errs :=
    check_required (lit "q") (raw_q raw)
    ++ check_range (lit "halaman") 1 (Some 5) hal in
  match raw_q raw, errs with
  | Some q0, [] =>
      inr {| q := q0;
             dari := raw_dari raw;
             sampai := raw_sampai raw;
             nq_bahasa := default (lit "id") (raw_nq_bahasa raw);
             halaman := hal |}
  | _, _ => inl errs
  end.

(** ** Utilities of [app.py] *)

(** The normalised article dict built by [fetch_news] and [/news]: always
    these five keys, each holding whatever the provider sent, or [None]. *)
Record Article := {
  judul : json;
  sumber : json;
  url : json;
  publishedAt : json;
  ringkas : json;
}.

(** The dict display in the two comprehensions, for one item [a]. *)
Definition normalize_article (a : json) : result Article :=
  title ← py_get a (lit "title") JNull;
  source ← py_get a (lit "source") (JObj ∅);
  name ← py_get source (lit "name") JNull;
  u ← py_get a (lit "url") JNull;
  p ← py_get a (lit "publishedAt") JNull;
  d ← py_get a (lit "description") JNull;
  mret {| judul := title; sumber := name; url := u;
          publishedAt := p; ringkas := d |}.

(** [[ {...} for a in articles ]]. *)
Definition normalize_articles (articles : json) : result (list Article) :=
  items ← py_iter articles;
  mapM normalize_article items.

Definition news_error_detail `{Builtins} (res : json) : str :=
  lit "Gagal memuat berita: " ++ py_str res.

Definition fetch_news `{Builtins} (w : World)
    (q : str) (language : str) (from_days : Z) (page_size : Z)
  : M (list Article) :=
  let frm := today w - from_days in
  res ← call_news w
          {| np_q := q;
             np_language := language;
             np_from_param := Some (strftime_Ymd frm);
             np_to := Some (strftime_Ymd (today w));
             np_sort_by := lit "publishedAt";
             np_page := 1;
             np_page_size := page_size |};
  status ← lift (py_get res (lit "status") JNull);
  if negb (eq_str status (lit "ok")) then
    raise (HTTPException 502 (news_error_detail res))
  else
    articles ← lift (py_get res (lit "articles") (JArr []));
    lift (normalize_articles articles).

(** [enumerate(l, start)]. *)
Fixpoint enumerate {A} (start : Z) (l : list A) : list (Z * A) :=
  match l with
  | [] => []
  | a :: r => (start, a) :: enumerate (start + 1) r
  end.

Definition NO_ARTICLES : str :=
  lit "Tidak ada artikel relevan yang ditemukan dalam jangka waktu yang ditentukan.".

Definition NEWS_HEADER : str :=
  lit "Artikel Berita Terkait (ringkasan singkat):".

(** [x or '-'] inside an f-string. *)
Definition or_dash `{Builtins} (v : json) : str :=
  if truthy v then py_str v else lit "-".

(** The f-string appended for article [a] at index [i]: the enumerated line,
    a newline, and the indented summary line.  [a.get("publishedAt", "")]
    always finds the key in a normalised article. *)
Definition article_entry `{Builtins} (i : Z) (a : Article) : str :=
  let when := publishedAt a in
  str_of_int i ++ lit ". [" ++ py_str (judul a) ++ lit "](" ++ py_str (url a)
  ++ lit ") " ++ [EM_DASH] ++ lit " " ++ py_str (sumber a)
  ++ lit " " ++ [EM_DASH] ++ lit " " ++ py_str when
  ++ [NL] ++ lit "   Ringkas: " ++ or_dash (ringkas a).

Definition build_news_context `{Builtins} (articles : list Article) : str :=
  match articles with
  | [] => NO_ARTICLES
  | _ :: _ =>
      let lines :=
        fold_left (fun lines ia => lines ++ [article_entry ia.1 ia.2])
                  (enumerate 1 articles) [NEWS_HEADER] in
      join [NL] lines
  end.

(** [s or '-'] for an optional string, [n or '-'] for an optional int. *)
Definition str_or_dash (s : option str) : str :=
  match s with
  | Some s' => if truthy_str s' then s' else lit "-"
  | None => lit "-"
  end.

Definition int_or_dash (n : option Z) : str :=
  match n with
  | Some n' => if n' =? 0 then lit "-" else str_of_int n'
  | None => lit "-"
  end.

Definition profile_text (profile : InvestorProfile) : str :=
  lit "Profil Investor:" ++ [NL]
  ++ lit "- Risiko: " ++ str_or_dash (risiko profile) ++ [NL]
  ++ lit "- Horizon (bulan): " ++ int_or_dash (horizon_bulan profile) ++ [NL]
  ++ lit "- Fokus: " ++ str_or_dash (fokus profile) ++ [NL].

Definition TASK_TEXT : str :=
  lit "Tugas:" ++ [NL]
  ++ lit "- Jawab pertanyaan pengguna di bawah ini." ++ [NL]
  ++ lit "- Gunakan konteks berita di atas jika relevan." ++ [NL]
  ++ lit "- Sertakan langkah analisis ringkas, poin risiko, dan opsi alternatif." ++ [NL]
  ++ lit "- Akhiri dengan ringkasan eksekutif (3" ++ [EN_DASH] ++ lit "5 poin bullet)." ++ [NL]
  ++ lit "- Tambahkan penafian singkat bahwa ini bukan nasihat keuangan personal." ++ [NL].

Definition QUESTION_PREFIX : str := lit "Pertanyaan Pengguna: ".

(** [parts = []] followed by the [append]s.  A pydantic model instance has
    neither [__bool__] nor [__len__], so [if profile:] tests for [None]. *)
Definition build_prompt (user_q : str) (profile : option InvestorProfile)
    (news_ctx : str) : list Part :=
  let parts := [] in
  let parts :=
    match profile with
    | Some pr => parts ++ [{| text := profile_text pr |}]
    | None => parts
    end in
  let parts := parts ++ [{| text := news_ctx |}] in
  let parts := parts ++ [{| text := TASK_TEXT |}] in
  let parts := parts ++ [{| text := QUESTION_PREFIX ++ user_q |}] in
  parts.

(** ** Handlers *)

Inductive body :=
| AnalyzeBody (query news_query : str) (articles_count : Z)
              (answer disclaimer : str)
| NewsBody (total : json) (articles : list Article)
| SuggestBody (suggestions : list str)
| RootBody (name model : str) (endpoints : list str) (disclaimer : str).

Definition FALLBACK_QUERY : str := lit "ekonomi OR pasar saham OR IHSG".

(** Step 1 of [analyze]: [terms], then [" OR ".join(terms)]. *)
Definition analyze_terms (req : AnalyzeRequest) : list str :=
  let terms := [] in
  let terms :=
    match kata_kunci req with
    | Some kw => if truthy_str kw then terms ++ [kw] else terms
    | None => terms
    end in
  let terms :=
    match tickers req with
    | Some (t :: ts) => terms ++ (t :: ts)
    | Some [] | None => terms
    end in
  match terms with
  | [] => [FALLBACK_QUERY]
  | _ :: _ => terms
  end.

Definition analyze_query (req : AnalyzeRequest) : str :=
  join (lit " OR ") (analyze_terms req).

Definition gemini_error (e : exn) : exn :=
  HTTPException 500 (lit "Gagal memanggil Gemini: " ++ exn_str e).

Definition ANALYZE_DISCLAIMER : str :=
  lit "Konten untuk tujuan edukasi. Lakukan riset mandiri & konsultasi penasihat berizin.".

Definition analyze `{Builtins} (w : World) (req : AnalyzeRequest) : M body :=
  let q := analyze_query req in
  articles ← fetch_news w q (bahasa req) (hari_kebelakang req) 8;
  let news_ctx := build_news_context articles in
  let parts := build_prompt (pertanyaan req) (profil req) news_ctx in
  teks ← try_except (call_gemini w (GenParts parts))
                    (fun e => raise (gemini_error e));
  mret (AnalyzeBody (pertanyaan req) q (Z.of_nat (length articles)) teks
                    ANALYZE_DISCLAIMER).

(** [if frm: params["from_param"] = frm]: an optional string that is kept
    only when it is given and non-empty. *)
Definition nonempty (s : option str) : option str :=
  match s with
  | Some s' => if truthy_str s' then Some s' else None
  | None => None
  end.

Definition news `{Builtins} (w : World) (query : NewsQuery) : M body :=
  let frm := dari query in
  let to := sampai query in
  res ← call_news w
          {| np_q := q query;
             np_language := nq_bahasa query;
             np_from_param := nonempty frm;
             np_to := nonempty to;
             np_sort_by := lit "publishedAt";
             np_page := halaman query;
             np_page_size := 20 |};
  status ← lift (py_get res (lit "status") JNull);
  if negb (eq_str status (lit "ok")) then
    raise (HTTPException 502 (news_error_detail res))
  else
    items ← lift (py_get res (lit "articles") (JArr []));
    articles ← lift (normalize_articles items);
    total ← lift (py_get res (lit "totalResults") (JNum 0));
    mret (NewsBody total articles).

Definition SUGGEST_PROMPT : str :=
  lit "Buat 8 pertanyaan tajam seputar keuangan/investasi untuk membantu analisis. "
  ++ lit "Variasikan dari makro, sektor, emiten, manajemen risiko, dan perencanaan keuangan. ".

(** The characters of [strip("- •\n ")]. *)
Definition BULLET_CHARS : str := [HYPHEN; SPACE; BULLET; NL; SPACE].

(** The comprehension of the last line of [suggest_questions]. *)
Definition parse_suggestions (teks : str) : list str :=
  map (strip_chars BULLET_CHARS)
      (filter (fun s => truthy_str (strip s) = true) (split NL teks)).

Definition suggest_questions (w : World) (topik : option str) : M body :=
  let prompt := SUGGEST_PROMPT in
  let prompt :=
    match topik with
    | Some t =>
        if truthy_str t then prompt ++ lit "Fokus utama: " ++ t ++ lit ". "
        else prompt
    | None => prompt
    end in
  teks ← try_except (call_gemini w (GenText prompt))
                    (fun e => raise (gemini_error e));
  mret (SuggestBody (parse_suggestions teks)).

(** ** The HTTP surface *)

Inductive response :=
| Ok200 (b : body)
| Unprocessable422 (errors : list violation)
| HttpError (status_code : Z) (detail : str)
| InternalServerError500.

Definition status_of (r : response) : Z :=
  match r with
  | Ok200 _ => 200
  | Unprocessable422 _ => 422
  | HttpError s _ => s
  | InternalServerError500 => 500
  end.

(** How the framework answers: an [HTTPException] with its own status and
    detail, any other exception with a bare 500. *)
Definition respond (r : result body) : response :=
  match r with
  | inr b => Ok200 b
  | inl (HTTPException s d) => HttpError s d
  | inl _ => InternalServerError500
  end.

(** A route with a validated body: the handler runs only on a valid one. *)
Definition route {Raw Req} (validate : Raw -> list violation + Req)
    (handler : Req -> M body) (raw : Raw) : list call * response :=
  match validate raw with
  | inl errs => ([], Unprocessable422 errs)
  | inr req => let '(t, r) := handler req in (t, respond r)
  end.

Definition post_analyze `{Builtins} (w : World) (raw : RawAnalyzeRequest)
  : list call * response :=
  route validate_analyze (analyze w) raw.

Definition post_news `{Builtins} (w : World) (raw : RawNewsQuery)
  : list call * response :=
  route validate_news (news w) raw.

Definition get_suggest_questions (w : World) (topik : option str)
  : list call * response :=
  let '(t, r) := suggest_questions w topik in (t, respond r).

Definition GEMINI_MODEL_NAME : str := lit "gemini-1.5-flash".

Definition root : body :=
  RootBody (lit "AI Pakar Keuangan & Investasi") GEMINI_MODEL_NAME
           [lit "/analyze"; lit "/news"; lit "/suggest-questions"]
           (lit "Informasi bersifat edukatif, bukan nasihat keuangan personal.").

(** The four routes of [app]. *)
Inductive request :=
| GetRoot
| PostAnalyze (raw : RawAnalyzeRequest)
| PostNews (raw : RawNewsQuery)
| GetSuggestQuestions (topik : option str).

Definition app `{Builtins} (w : World) (r : request) : list call * response :=
  match r with
  | GetRoot => ([], Ok200 root)
  | PostAnalyze raw => post_analyze w raw
  | PostNews raw => post_news w raw
  | GetSuggestQuestions topik => get_suggest_questions w topik
  end.

(** The arguments of the one news call each handler makes. *)
Definition fetch_params `{Builtins} (w : World)
    (q language : str) (from_days page_size : Z) : news_params :=
  {| np_q := q;
     np_language := language;
     np_from_param := Some (strftime_Ymd (today w - from_days));
     np_to := Some (strftime_Ymd (today w));
     np_sort_by := lit "publishedAt";
     np_page := 1;
     np_page_size := page_size |}.

Definition analyze_news_params `{Builtins} (w : World) (req : AnalyzeRequest)
  : news_params :=
  fetch_params w (analyze_query req) (bahasa req) (hari_kebelakang req) 8.

Definition news_news_params (query : NewsQuery) : news_params :=
  {| np_q := q query;
     np_language := nq_bahasa query;
     np_from_param := nonempty (dari query);
     np_to := nonempty (sampai query);
     np_sort_by := lit "publishedAt";
     np_page := halaman query;
     np_page_size := 20 |}.

(** The news call a request leads to, if its body is valid. *)
Definition news_call_of `{Builtins} (w : World) (r : request)
  : option news_params :=
  match r with
  | PostAnalyze raw =>
      match validate_analyze raw with
      | inr req => Some (analyze_news_params w req)
      | inl _ => None
      end
  | PostNews raw =>
      match validate_news raw with
      | inr query => Some (news_news_params query)
      | inl _ => None
      end
  | GetRoot | GetSuggestQuestions _ => None
  end.

(** The request names a lookback window ([/analyze]) or a page ([/news])
    outside the declared bounds. *)
Definition window_out_of_range (r : request) : bool :=
  match r with
  | PostAnalyze raw =>
      match raw_hari_kebelakang raw with
      | Some h => (h <? 1) || (30 <? h)
      | None => false
      end
  | PostNews raw =>
      match raw_halaman raw with
      | Some p => (p <? 1) || (5 <? p)
      | None => false
      end
  | GetRoot | GetSuggestQuestions _ => false
  end.

(** ** Fixtures: a runtime and two worlds to evaluate the handlers in *)

Definition demo_builtins : Builtins :=
  {| py_repr := fun _ => lit "{...}";
     strftime_Ymd := fun _ => lit "2024-01-08" |}.

(** A provider that finds nothing and a model that answers [ok]. *)
Definition quiet_world : World :=
  {| today := 738893;
     get_everything := fun _ =>
       inr (JObj {[ lit "status" := JStr (lit "ok") ]});
     generate_content := fun _ => inr (lit "ok") |}.

(** A provider that reports an error. *)
Definition failing_world : World :=
  {| today := 738893;
     get_everything := fun _ =>
       inr (JObj {[ lit "status" := JStr (lit "error") ]});
     generate_content := fun _ => inr (lit "ok") |}.

Definition with_kata_kunci (kw : option str) (req : AnalyzeRequest)
  : AnalyzeRequest :=
  {| pertanyaan := pertanyaan req; tickers := tickers req; kata_kunci := kw;
     hari_kebelakang := hari_kebelakang req; bahasa := bahasa req;
     profil := profil req |}.

Definition with_tickers (tk : option (list str)) (req : AnalyzeRequest)
  : AnalyzeRequest :=
  {| pertanyaan := pertanyaan req; tickers := tk;
     kata_kunci := kata_kunci req;
     hari_kebelakang := hari_kebelakang req; bahasa := bahasa req;
     profil := profil req |}.

Definition sample_article (description : json) : Article :=
  {| judul := JStr (lit "IHSG menguat");
     sumber := JStr (lit "Kontan");
     url := JStr (lit "https://example.com/ihsg");
     publishedAt := JStr (lit "2024-01-08T02:00:00Z");
     ringkas := description |}.

(** A provider article whose description is the empty string. *)
Definition empty_description_item : json :=
  JObj {[ lit "title" := JStr (lit "IHSG menguat");
          lit "source" := JObj {[ lit "name" := JStr (lit "Kontan") ]};
          lit "url" := JStr (lit "https://example.com/ihsg");
          lit "publishedAt" := JStr (lit "2024-01-08T02:00:00Z");
          lit "description" := JStr [] ]}.

(** A payload with status ["ok"] whose one article has a null source. *)
Definition null_source_payload : json :=
  JObj {[ lit "status" := JStr (lit "ok");
          lit "articles" :=
            JArr [JObj {[ lit "title" := JStr (lit "IHSG menguat");
                          lit "source" := JNull ]}] ]}.

Definition null_source_world : World :=
  {| today := 738893;
     get_everything := fun _ => inr null_source_payload;
     generate_content := fun _ => inr (lit "ok") |}.

Definition plain_request (question : str) : AnalyzeRequest :=
  {| pertanyaan := question; tickers := None; kata_kunci := None;
     hari_kebelakang := 7; bahasa := lit "id"; profil := None |}.

Definition plain_raw (question : option str) : RawAnalyzeRequest :=
  {| raw_pertanyaan := question; raw_tickers := None; raw_kata_kunci := None;
     raw_hari_kebelakang := None; raw_bahasa := None; raw_profil := None |}.

Definition plain_raw_news (query : str) : RawNewsQuery :=
  {| raw_q := Some query; raw_dari := None; raw_sampai := None;
     raw_nq_bahasa := None; raw_halaman := None |}.

(** A payload with status ["ok"], a total and one readable article. *)
Definition articles_fields : gmap str json :=
  {[ lit "status" := JStr (lit "ok");
     lit "totalResults" := JNum 1;
     lit "articles" := JArr [empty_description_item] ]}.

Definition articles_payload : json := JObj articles_fields.

Definition profiled_raw : RawAnalyzeRequest :=
  {| raw_pertanyaan := Some (lit "Apa kabar pasar?");
     raw_tickers := None; raw_kata_kunci := None;
     raw_hari_kebelakang := Some 14; raw_bahasa := None;
     raw_profil := Some {| risiko := Some (lit "sedang");
                           horizon_bulan := Some 12;
                           fokus := None |} |}.

Definition dated_raw_news : RawNewsQuery :=
  {| raw_q := Some (lit "IHSG"); raw_dari := Some (lit "2024-01-01");
     raw_sampai := Some []; raw_nq_bahasa := None; raw_halaman := Some 2 |}.

Definition articles_world : World :=
  {| today := 738893;
     get_everything := fun _ => inr articles_payload;
     generate_content := fun _ => inr (lit "ok") |}.

(** A provider whose client raises an exception of its own. *)
Definition raising_world : World :=
  {| today := 738893;
     get_everything := fun _ => inl (External (lit "connection timed out"));
     generate_content := fun _ => inr (lit "ok") |}.

(** ** Vocabulary for the properties of the handlers *)

(** An item of the provider's article list that the comprehension can read:
    an object whose ["source"], when present, is an object. *)
Definition readable_item (a : json) : bool :=
  match a with
  | JObj m =>
      match m !! lit "source" with
      | None | Some (JObj _) => true
      | Some _ => false
      end
  | _ => false
  end.

(** The exception is one the program raises on purpose. *)
Definition is_http_exception (e : exn) : bool :=
  match e with HTTPException _ _ => true | _ => false end.

(** The parts [/analyze] sends to the model for the articles it fetched. *)
Definition analyze_parts `{Builtins} (req : AnalyzeRequest)
    (articles : list Article) : list Part :=
  build_prompt (pertanyaan req) (profil req) (build_news_context articles).

(** ** The spec's wording, for comparison with the code *)

(** The news query as the spec words it for a request that carries a keyword
    and a ticker list: the keyword, then the tickers, joined by [" OR "]. *)
Definition claimed_query (kw : str) (tks : list str) : str :=
  join (lit " OR ") (kw :: tks).

(** The summary of an article as the spec words it: the description, or the
    placeholder when the description is absent. *)
Definition claimed_summary `{Builtins} (a : Article) : str :=
  match ringkas a with
  | JNull => lit "-"
  | d => py_str d
  end.

(** The suggestions as the spec words them: the lines that are not blank,
    each with its leading bullet characters removed. *)
Definition claimed_suggestions (teks : str) : list str :=
  map (lstrip_by (fun c => existsb (N.eqb c) [HYPHEN; BULLET; SPACE]))
      (filter (fun s => truthy_str (strip s) = true) (split NL teks)).

(** * Properties *)

(** ** Strings *)

Example str_of_int_12 : str_of_int 12 = lit "12".
Proof. reflexivity. Qed.

Example str_of_int_neg : str_of_int (-5) = lit "-5".
Proof. reflexivity. Qed.

Example split_trailing_newline :
  split NL (lit "a" ++ [NL]) = [lit "a"; []].
Proof. reflexivity. Qed.

Example strip_both_ends : strip (lit "  a b ") = lit "a b".
Proof. reflexivity. Qed.

Lemma join_cons sep (p : str) (rest : list str) :
  rest ≠ [] → join sep (p :: rest) = p ++ sep ++ join sep rest.
Proof. destruct rest; [done | reflexivity]. Qed.

Lemma split_nonempty c s : split c s ≠ [].
Proof.
  induction s as [|x r IH]; simpl; [done|].
  destruct (N.eqb x c); [done|]. by destruct (split c r).
Qed.

(** [split] loses nothing: joining the pieces gives the text back. *)
Lemma join_split c s : join [c] (split c s) = s.
Proof.
  induction s as [|x r IH]; simpl; [done|].
  destruct (N.eqb_spec x c) as [->|Hne].
  - rewrite join_cons by apply split_nonempty. simpl. by rewrite IH.
  - pose proof (split_nonempty c r) as Hs.
    destruct (split c r) as [|h t]; [done|].
    destruct t as [|h' t'].
    + simpl in *. by rewrite IH.
    + change (join [c] ((x :: h) :: h' :: t'))
        with (x :: (h ++ [c] ++ join [c] (h' :: t'))).
      f_equal. exact IH.
Qed.

(** No piece of a split contains the separator. *)
Lemma split_no_sep c s piece : piece ∈ split c s → c ∉ piece.
Proof.
  revert piece. induction s as [|x r IH]; simpl; intros piece Hin.
  - apply list_elem_of_singleton in Hin as ->. apply not_elem_of_nil.
  - destruct (N.eqb_spec x c) as [->|Hne].
    + apply elem_of_cons in Hin as [->|Hin]; [apply not_elem_of_nil | auto].
    + pose proof (split_nonempty c r) as Hs.
      destruct (split c r) as [|h t]; [done|].
      apply elem_of_cons in Hin as [->|Hin].
      * intros [Heq|Hc]%elem_of_cons; [congruence|].
        apply (IH h); [left | done].
      * apply IH. by right.
Qed.

Section Strip.
Variable p : char -> bool.

Lemma lstrip_by_split s :
  ∃ pre, s = pre ++ lstrip_by p s ∧ forallb p pre = true.
Proof.
  induction s as [|x r [pre [Hs Hp]]]; simpl.
  - by exists [].
  - destruct (p x) eqn:Hx.
    + exists (x :: pre). simpl. rewrite Hx, Hp. split; [by f_equal | done].
    + by exists [].
Qed.

Lemma lstrip_by_head s c r : lstrip_by p s = c :: r → p c = false.
Proof.
  induction s as [|x s IH]; simpl; [done|].
  destruct (p x) eqn:Hx; [done|]. by intros [= <- _].
Qed.

Lemma lstrip_by_nil s : lstrip_by p s = [] ↔ forallb p s = true.
Proof.
  induction s as [|x s IH]; simpl; [done|].
  destruct (p x); simpl; [done|]. split; discriminate.
Qed.

Lemma forallb_rev (s : str) : forallb p (rev s) = forallb p s.
Proof.
  induction s as [|x s IH]; simpl; [done|].
  rewrite forallb_app, IH. simpl. rewrite andb_true_r. apply andb_comm.
Qed.

Lemma rstrip_by_split s :
  ∃ post, s = rstrip_by p s ++ post ∧ forallb p post = true.
Proof.
  unfold rstrip_by.
  destruct (lstrip_by_split (rev s)) as [pre [Hs Hp]].
  exists (rev pre). rewrite forallb_rev. split; [|done].
  rewrite <- rev_app_distr, <- Hs. symmetry. apply rev_involutive.
Qed.

Lemma rstrip_by_last s c : last (rstrip_by p s) = Some c → p c = false.
Proof.
  unfold rstrip_by.
  destruct (lstrip_by p (rev s)) as [|y r] eqn:E; simpl; [done|].
  rewrite last_snoc. intros [= <-]. by apply lstrip_by_head in E.
Qed.

Lemma rstrip_by_nil s : rstrip_by p s = [] ↔ forallb p s = true.
Proof.
  unfold rstrip_by. rewrite <- forallb_rev, <- lstrip_by_nil.
  split; intros E; [|by rewrite E].
  apply (f_equal (@rev char)) in E. by rewrite rev_involutive in E.
Qed.

(** Stripping on the right leaves the first character where it is. *)
Lemma rstrip_by_head s c r :
  rstrip_by p s = c :: r → ∃ r', s = c :: r'.
Proof.
  intros E. destruct (rstrip_by_split s) as [post [Hs _]].
  rewrite E in Hs. eauto.
Qed.

(** What [strip] removes and what it keeps: the text is a run of stripped
    characters, the result, and another run of stripped characters. *)
Lemma strip_by_split s :
  ∃ pre post, s = pre ++ strip_by p s ++ post
              ∧ forallb p pre = true ∧ forallb p post = true.
Proof.
  unfold strip_by.
  destruct (lstrip_by_split s) as [pre [Hs Hp]].
  destruct (rstrip_by_split (lstrip_by p s)) as [post [Hs' Hp']].
  exists pre, post. split; [|done]. rewrite <- Hs'. exact Hs.
Qed.

Lemma strip_by_head s c r : strip_by p s = c :: r → p c = false.
Proof.
  unfold strip_by. intros E.
  destruct (rstrip_by_head _ _ _ E) as [r' E'].
  by apply lstrip_by_head in E'.
Qed.

Lemma strip_by_last s c : last (strip_by p s) = Some c → p c = false.
Proof. apply rstrip_by_last. Qed.

Lemma strip_by_nil s : strip_by p s = [] ↔ forallb p s = true.
Proof.
  unfold strip_by. rewrite rstrip_by_nil.
  destruct (lstrip_by_split s) as [pre [Hs Hp]].
  split; intros E.
  - rewrite Hs, forallb_app, Hp, E. done.
  - rewrite Hs, forallb_app in E. by apply andb_prop in E as [_ E].
Qed.
End Strip.

(** ** JSON access *)

Lemma eq_str_true v s : eq_str v s = true ↔ v = JStr s.
Proof.
  destruct v; simpl; try (split; [discriminate | by intros [=]]).
  rewrite bool_decide_eq_true. split; [by intros -> | by intros [= ->]].
Qed.

Lemma status_not_ok (m : gmap str json) :
  m !! lit "status" ≠ Some (JStr (lit "ok")) →
  eq_str (from_option id JNull (m !! lit "status")) (lit "ok") = false.
Proof.
  intros Hne. apply not_true_is_false. rewrite eq_str_true.
  destruct (m !! lit "status") as [v|]; simpl; [|done].
  intros ->. by apply Hne.
Qed.

(** ** The handlers, call by call *)

Section Handlers.
Context `{Builtins}.

Lemma fetch_news_calls w q language from_days page_size :
  calls (fetch_news w q language from_days page_size)
  = [NewsCall (fetch_params w q language from_days page_size)].
Proof.
  unfold fetch_news, call_news, calls, fetch_params. cbn.
  destruct (get_everything w _) as [e|res]; cbn; [done|].
  destruct (py_get res _ _) as [e|st]; cbn; [done|].
  destruct (eq_str st _); cbn; [|done].
  destruct (py_get res _ _) as [e|arts]; cbn; [done|].
  destruct (normalize_articles arts); done.
Qed.

(** A provider payload whose status is not ["ok"] ends [fetch_news] with
    the 502 that carries the payload. *)
Lemma fetch_news_not_ok w q language from_days page_size m :
  get_everything w (fetch_params w q language from_days page_size)
    = inr (JObj m) →
  m !! lit "status" ≠ Some (JStr (lit "ok")) →
  fetch_news w q language from_days page_size
  = ([NewsCall (fetch_params w q language from_days page_size)],
     inl (HTTPException 502 (lit "Gagal memuat berita: " ++ py_repr (JObj m)))).
Proof.
  intros Hres Hst. unfold fetch_news, call_news.
  fold (fetch_params w q language from_days page_size). rewrite Hres. cbn.
  by rewrite (status_not_ok m Hst).
Qed.

(** A payload with status ["ok"] ends it with the normalised articles. *)
Lemma fetch_news_ok w q language from_days page_size m :
  get_everything w (fetch_params w q language from_days page_size)
    = inr (JObj m) →
  m !! lit "status" = Some (JStr (lit "ok")) →
  fetch_news w q language from_days page_size
  = ([NewsCall (fetch_params w q language from_days page_size)],
     normalize_articles (from_option id (JArr []) (m !! lit "articles"))).
Proof.
  intros Hres Hst. unfold fetch_news, call_news.
  fold (fetch_params w q language from_days page_size). rewrite Hres. cbn.
  rewrite Hst. cbn. rewrite bool_decide_true by done. cbn.
  by destruct (normalize_articles _).
Qed.

(** When the news fetch raises, [analyze] stops there. *)
Lemma analyze_fetch_raises w req e :
  outcome (fetch_news w (analyze_query req) (bahasa req)
                      (hari_kebelakang req) 8) = inl e →
  analyze w req = ([NewsCall (analyze_news_params w req)], inl e).
Proof.
  intros He. unfold analyze.
  pose proof (fetch_news_calls w (analyze_query req) (bahasa req)
                (hari_kebelakang req) 8) as Hc.
  destruct (fetch_news w _ _ _ _) as [t r]. unfold calls, outcome in *.
  simpl in *. by subst.
Qed.

(** [analyze] makes one news call, first, and at most one generation call
    after it. *)
Lemma analyze_calls w req :
  calls (analyze w req) = [NewsCall (analyze_news_params w req)]
  ∨ ∃ g, calls (analyze w req)
         = [NewsCall (analyze_news_params w req); GeminiCall g].
Proof.
  unfold analyze.
  pose proof (fetch_news_calls w (analyze_query req) (bahasa req)
                (hari_kebelakang req) 8) as Hc.
  destruct (fetch_news w _ _ _ _) as [t [e|arts]]; unfold calls in *;
    simpl in *; subst t.
  - by left.
  - right. unfold call_gemini, try_except. cbn.
    destruct (generate_content w _); cbn; eauto.
Qed.

Lemma analyze_news_queries w req :
  news_queries (calls (analyze w req)) = [analyze_query req].
Proof.
  destruct (analyze_calls w req) as [-> | [g ->]]; reflexivity.
Qed.
End Handlers.

(** ** The news query of [/analyze] *)

(** C1, as amended: for every request to [/analyze] whose keyword is present
    and not empty and whose ticker list is present, the one query sent to the
    news provider is the keyword followed by the tickers in list order, joined
    by [" OR "]. *)
Theorem analyze_query_keyword_then_tickers `{Builtins} w req kw tks :
  kata_kunci req = Some kw → kw ≠ [] → tickers req = Some tks →
  news_queries (calls (analyze w req)) = [join (lit " OR ") (kw :: tks)].
Proof.
  intros Hkw Hne Htk. rewrite analyze_news_queries. f_equal.
  unfold analyze_query, analyze_terms. rewrite Hkw, Htk.
  destruct kw as [|c kw]; [done|]. simpl truthy_str. cbv iota.
  by destruct tks.
Qed.

(** The spec's own example: ["inflasi"] with [["BBCA"; "TLKM"]]. *)
Lemma analyze_query_keyword_then_tickers_witness :
  news_queries
    (calls (@analyze demo_builtins quiet_world
              (with_tickers (Some [lit "BBCA"; lit "TLKM"])
                 (with_kata_kunci (Some (lit "inflasi"))
                    (plain_request (lit "Bagaimana dampak inflasi?"))))))
  = [lit "inflasi OR BBCA OR TLKM"].
Proof.
  apply (@analyze_query_keyword_then_tickers demo_builtins quiet_world _
           (lit "inflasi") [lit "BBCA"; lit "TLKM"]).
  - reflexivity.
  - vm_compute. discriminate.
  - reflexivity.
Defined.

(** C1, as stated, fails for a keyword that is present but empty: the body
    passes validation and the code drops the keyword, so the query is
    ["BBCA"], not [" OR BBCA"]. *)
Lemma analyze_query_empty_keyword_dropped :
  let raw := {| raw_pertanyaan := Some (lit "Bagaimana prospek BBCA?");
                raw_tickers := Some [lit "BBCA"];
                raw_kata_kunci := Some [];
                raw_hari_kebelakang := None;
                raw_bahasa := None; raw_profil := None |} in
  news_queries (@app demo_builtins quiet_world (PostAnalyze raw)).1
  = [lit "BBCA"]
  ∧ claimed_query [] [lit "BBCA"] = lit " OR BBCA"
  ∧ news_queries (@app demo_builtins quiet_world (PostAnalyze raw)).1
    ≠ [claimed_query [] [lit "BBCA"]].
Proof.
  intros raw. split; [by vm_compute|]. split; [by vm_compute|].
  vm_compute. discriminate.
Qed.

(** C2: for every request to [/analyze] in which tickers and keyword are both
    absent, the one query sent to the news provider is exactly the fallback
    ["ekonomi OR pasar saham OR IHSG"]. *)
Theorem analyze_query_fallback `{Builtins} w req :
  tickers req = None → kata_kunci req = None →
  news_queries (calls (analyze w req)) = [lit "ekonomi OR pasar saham OR IHSG"].
Proof.
  intros Htk Hkw. rewrite analyze_news_queries.
  unfold analyze_query, analyze_terms. by rewrite Hkw, Htk.
Qed.

Lemma analyze_query_fallback_witness :
  news_queries
    (calls (@analyze demo_builtins quiet_world
              (plain_request (lit "Apa kabar pasar hari ini?"))))
  = [lit "ekonomi OR pasar saham OR IHSG"].
Proof.
  apply (@analyze_query_fallback demo_builtins quiet_world); reflexivity.
Defined.

(** C10: when building the news query of [/analyze], an empty keyword and an
    empty ticker list are each treated as an absent field (for every request
    [req'], the handler does the same with the empty field as without it); if
    both are empty or absent, the query sent to the provider is the fallback
    ["ekonomi OR pasar saham OR IHSG"]. *)
Theorem analyze_query_empty_as_absent `{Builtins} w req req' :
  kata_kunci req = None ∨ kata_kunci req = Some [] →
  tickers req = None ∨ tickers req = Some [] →
  news_queries (calls (analyze w req)) = [lit "ekonomi OR pasar saham OR IHSG"]
  ∧ analyze w (with_kata_kunci (Some []) req')
    = analyze w (with_kata_kunci None req')
  ∧ analyze w (with_tickers (Some []) req')
    = analyze w (with_tickers None req').
Proof.
  intros Hkw Htk. split; [|by split].
  rewrite analyze_news_queries. unfold analyze_query, analyze_terms.
  by destruct Hkw as [-> | ->], Htk as [-> | ->].
Qed.

Lemma analyze_query_empty_as_absent_witness :
  let req := with_tickers (Some [])
               (with_kata_kunci (Some []) (plain_request (lit "IHSG?"))) in
  news_queries (calls (@analyze demo_builtins quiet_world req))
  = [lit "ekonomi OR pasar saham OR IHSG"]
  ∧ @analyze demo_builtins quiet_world (with_kata_kunci (Some []) req)
    = @analyze demo_builtins quiet_world (with_kata_kunci None req)
  ∧ @analyze demo_builtins quiet_world (with_tickers (Some []) req)
    = @analyze demo_builtins quiet_world (with_tickers None req).
Proof.
  intros req.
  apply (@analyze_query_empty_as_absent demo_builtins quiet_world req req).
  - right. reflexivity.
  - right. reflexivity.
Defined.

(** ** Validation at request entry *)

Lemma check_range_below field lo hi v :
  v < lo → check_range field lo hi v = [NotGe field lo].
Proof. intros Hlt. unfold check_range. by rewrite (proj2 (Z.ltb_lt v lo)). Qed.

Lemma check_range_above field lo hi v :
  hi < v → check_range field lo (Some hi) v ≠ [].
Proof.
  intros Hlt. unfold check_range. destruct (v <? lo); [done|].
  by rewrite (proj2 (Z.ltb_lt hi v)).
Qed.

(** A body with any violation never reaches the handler. *)
Lemma validate_analyze_errors raw :
  check_required (lit "pertanyaan") (raw_pertanyaan raw)
  ++ check_range (lit "hari_kebelakang") 1 (Some 30)
       (default 7 (raw_hari_kebelakang raw))
  ++ check_profile (raw_profil raw) ≠ [] →
  ∃ errs, validate_analyze raw = inl errs ∧ errs ≠ [].
Proof.
  intros Hne. unfold validate_analyze.
  destruct (raw_pertanyaan raw) as [qs|]; [|eauto].
  match goal with |- context [match ?e with [] => _ | _ :: _ => _ end] =>
    destruct e eqn:E end; [done | eauto].
Qed.

Lemma validate_news_errors raw :
  check_required (lit "q") (raw_q raw)
  ++ check_range (lit "halaman") 1 (Some 5) (default 1 (raw_halaman raw))
  ≠ [] →
  ∃ errs, validate_news raw = inl errs ∧ errs ≠ [].
Proof.
  intros Hne. unfold validate_news.
  destruct (raw_q raw) as [qs|]; [|eauto].
  match goal with |- context [match ?e with [] => _ | _ :: _ => _ end] =>
    destruct e eqn:E end; [done | eauto].
Qed.

Lemma range_violated field lo hi v :
  v < lo ∨ hi < v → check_range field lo (Some hi) v ≠ [].
Proof.
  intros [Hlo | Hhi]; [by rewrite check_range_below | by apply check_range_above].
Qed.

(** C7: a request to [/analyze] whose [hari_kebelakang] lies outside [1, 30],
    and a request to [/news] whose [halaman] lies outside [1, 5], is rejected
    with a client-error status (422) and no outbound call at all. *)
Theorem out_of_range_rejected `{Builtins} w r :
  window_out_of_range r = true →
  ∃ errs, app w r = ([], Unprocessable422 errs)
          ∧ errs ≠ []
          ∧ 400 ≤ status_of (app w r).2 ≤ 499.
Proof.
  destruct r as [|raw|raw|topik]; simpl; [done| | |done].
  - destruct (raw_hari_kebelakang raw) as [h|] eqn:Hh; [|done].
    intros Hout. apply orb_true_iff in Hout. rewrite !Z.ltb_lt in Hout.
    destruct (validate_analyze_errors raw) as (errs & Hv & Hne).
    { rewrite Hh. simpl.
      destruct (check_required _ _); [|done]. simpl.
      pose proof (range_violated (lit "hari_kebelakang") 1 30 h Hout).
      by destruct (check_range _ _ _ _). }
    exists errs. unfold post_analyze, route. rewrite Hv. simpl.
    repeat split; [done | lia | lia].
  - destruct (raw_halaman raw) as [p|] eqn:Hp; [|done].
    intros Hout. apply orb_true_iff in Hout. rewrite !Z.ltb_lt in Hout.
    destruct (validate_news_errors raw) as (errs & Hv & Hne).
    { rewrite Hp. simpl.
      destruct (check_required _ _); [|done]. simpl.
      pose proof (range_violated (lit "halaman") 1 5 p Hout).
      by destruct (check_range _ _ _ _). }
    exists errs. unfold post_news, route. rewrite Hv. simpl.
    repeat split; [done | lia | lia].
Qed.

Lemma out_of_range_rejected_witness :
  (∃ errs,
     @app demo_builtins quiet_world
       (PostAnalyze
          {| raw_pertanyaan := Some (lit "Apa kabar pasar?");
             raw_tickers := None; raw_kata_kunci := None;
             raw_hari_kebelakang := Some 31;
             raw_bahasa := None; raw_profil := None |})
     = ([], Unprocessable422 errs)
     ∧ errs ≠ []
     ∧ 400 ≤ status_of
               (@app demo_builtins quiet_world
                  (PostAnalyze
                     {| raw_pertanyaan := Some (lit "Apa kabar pasar?");
                        raw_tickers := None; raw_kata_kunci := None;
                        raw_hari_kebelakang := Some 31;
                        raw_bahasa := None; raw_profil := None |})).2 ≤ 499)
  ∧ (∃ errs,
       @app demo_builtins quiet_world
         (PostNews
            {| raw_q := Some (lit "IHSG"); raw_dari := None;
               raw_sampai := None; raw_nq_bahasa := None;
               raw_halaman := Some 0 |})
       = ([], Unprocessable422 errs)
       ∧ errs ≠ []
       ∧ 400 ≤ status_of
                 (@app demo_builtins quiet_world
                    (PostNews
                       {| raw_q := Some (lit "IHSG"); raw_dari := None;
                          raw_sampai := None; raw_nq_bahasa := None;
                          raw_halaman := Some 0 |})).2 ≤ 499).
Proof.
  split.
  - apply (@out_of_range_rejected demo_builtins quiet_world). reflexivity.
  - apply (@out_of_range_rejected demo_builtins quiet_world). reflexivity.
Defined.

(** C8, as amended: [pertanyaan] is a required string: every request to
    [/analyze] whose question is absent is rejected at request entry, with the
    missing field reported and no outbound call. *)
Theorem missing_question_rejected `{Builtins} w raw :
  raw_pertanyaan raw = None →
  ∃ errs, app w (PostAnalyze raw) = ([], Unprocessable422 errs)
          ∧ Missing (lit "pertanyaan") ∈ errs.
Proof.
  intros Hq. simpl. unfold post_analyze, route, validate_analyze.
  rewrite Hq. simpl. eexists. split; [reflexivity|]. by left.
Qed.

Lemma missing_question_rejected_witness :
  ∃ errs, @app demo_builtins quiet_world (PostAnalyze (plain_raw None))
          = ([], Unprocessable422 errs)
          ∧ Missing (lit "pertanyaan") ∈ errs.
Proof.
  apply (@missing_question_rejected demo_builtins quiet_world). reflexivity.
Defined.

(** C8, as stated, fails for the empty question: no declared constraint
    bounds the length of [pertanyaan], so the request passes validation and
    both providers are called. *)
Lemma empty_question_accepted :
  validate_analyze (plain_raw (Some [])) = inr (plain_request [])
  ∧ (@app demo_builtins quiet_world (PostAnalyze (plain_raw (Some [])))).2
    = Ok200 (AnalyzeBody [] FALLBACK_QUERY 0 (lit "ok") ANALYZE_DISCLAIMER)
  ∧ map is_gemini_call
      (@app demo_builtins quiet_world (PostAnalyze (plain_raw (Some [])))).1
    = [false; true].
Proof. by vm_compute. Qed.

(** ** Upstream news errors *)

Section NewsErrors.
Context `{Builtins}.

Lemma news_not_ok w query m :
  get_everything w (news_news_params query) = inr (JObj m) →
  m !! lit "status" ≠ Some (JStr (lit "ok")) →
  news w query
  = ([NewsCall (news_news_params query)],
     inl (HTTPException 502 (lit "Gagal memuat berita: " ++ py_repr (JObj m)))).
Proof.
  intros Hres Hst. unfold news, call_news.
  fold (news_news_params query). rewrite Hres. cbn.
  by rewrite (status_not_ok m Hst).
Qed.

(** C6: when the payload the news provider returns for a request to
    [/analyze] or [/news] has a status other than ["ok"], the response is a
    502 whose detail carries the rendered payload, and the news call is the
    only outbound call: no generation call is made. *)
Theorem news_provider_error_is_502 w r p m :
  news_call_of w r = Some p →
  get_everything w p = inr (JObj m) →
  m !! lit "status" ≠ Some (JStr (lit "ok")) →
  app w r = ([NewsCall p],
             HttpError 502 (lit "Gagal memuat berita: " ++ py_repr (JObj m)))
  ∧ ∀ g, GeminiCall g ∉ (app w r).1.
Proof.
  intros Hcall Hres Hst.
  assert (app w r = ([NewsCall p],
             HttpError 502 (lit "Gagal memuat berita: " ++ py_repr (JObj m))))
    as Happ.
  { destruct r as [|raw|raw|topik]; simpl in *; [done| | |done].
    - unfold post_analyze, route.
      destruct (validate_analyze raw) as [errs|req]; [done|].
      injection Hcall as <-.
      rewrite (analyze_fetch_raises w req
                 (HTTPException 502
                    (lit "Gagal memuat berita: " ++ py_repr (JObj m)))).
      + reflexivity.
      + unfold analyze_news_params in Hres.
        by rewrite (fetch_news_not_ok _ _ _ _ _ m Hres Hst).
    - unfold post_news, route.
      destruct (validate_news raw) as [errs|query]; [done|].
      injection Hcall as <-.
      by rewrite (news_not_ok w query m Hres Hst). }
  split; [exact Happ|].
  intros g. rewrite Happ. simpl.
  intros Hin. apply list_elem_of_singleton in Hin. discriminate.
Qed.
End NewsErrors.

Lemma news_provider_error_is_502_witness :
  let r := PostAnalyze (plain_raw (Some (lit "Apa kabar pasar?"))) in
  let p := @analyze_news_params demo_builtins failing_world
             (plain_request (lit "Apa kabar pasar?")) in
  let m : gmap str json := {[ lit "status" := JStr (lit "error") ]} in
  @app demo_builtins failing_world r
  = ([NewsCall p],
     HttpError 502 (lit "Gagal memuat berita: " ++ @py_repr demo_builtins (JObj m)))
  ∧ ∀ g, GeminiCall g ∉ (@app demo_builtins failing_world r).1.
Proof.
  intros r p m.
  apply (@news_provider_error_is_502 demo_builtins failing_world r p m).
  - reflexivity.
  - reflexivity.
  - vm_compute. discriminate.
Defined.

(** ** Prompt assembly *)

(** C3: for every question, optional profile and news context, [build_prompt]
    returns the profile segment (there exactly when a profile was given), then
    the news context, then the instructions, then the question; the last
    segment is ["Pertanyaan Pengguna: "] followed by the question. *)
Theorem build_prompt_order user_q profile news_ctx :
  build_prompt user_q profile news_ctx
  = match profile with
    | Some pr => [{| text := profile_text pr |}]
    | None => []
    end
    ++ [{| text := news_ctx |};
        {| text := TASK_TEXT |};
        {| text := lit "Pertanyaan Pengguna: " ++ user_q |}]
  ∧ last (build_prompt user_q profile news_ctx)
    = Some {| text := lit "Pertanyaan Pengguna: " ++ user_q |}
  ∧ length (build_prompt user_q profile news_ctx)
    = match profile with Some _ => 4%nat | None => 3%nat end.
Proof. by destruct profile. Qed.

Example build_prompt_no_profile :
  map text (build_prompt (lit "Apa itu IHSG?") None NO_ARTICLES)
  = [NO_ARTICLES; TASK_TEXT; lit "Pertanyaan Pengguna: Apa itu IHSG?"].
Proof. reflexivity. Qed.

Example profile_text_placeholders :
  profile_text {| risiko := Some (lit "sedang"); horizon_bulan := Some 12;
                  fokus := None |}
  = lit "Profil Investor:" ++ [NL] ++ lit "- Risiko: sedang" ++ [NL]
    ++ lit "- Horizon (bulan): 12" ++ [NL] ++ lit "- Fokus: -" ++ [NL].
Proof. reflexivity. Qed.

(** ** The news context *)

Lemma fold_left_snoc_map {A B} (f : A → B) (l : list A) (init : list B) :
  fold_left (fun acc x => acc ++ [f x]) l init = init ++ map f l.
Proof.
  revert init. induction l as [|x l IH]; intros init; simpl.
  - by rewrite app_nil_r.
  - rewrite IH. by rewrite <- app_assoc.
Qed.

Lemma length_enumerate {A} (start : Z) (l : list A) :
  length (enumerate start l) = length l.
Proof. revert start. induction l; intros; simpl; [done | by f_equal]. Qed.

(** The item at position [k] is paired with [start + k]. *)
Lemma enumerate_lookup {A B} (f : Z * A → B) (l : list A) start k a :
  l !! k = Some a →
  map f (enumerate start l) !! k = Some (f (start + Z.of_nat k, a)).
Proof.
  revert start k. induction l as [|x l IH]; intros start k Hk; [done|].
  destruct k as [|k]; simpl in *.
  - injection Hk as ->. by rewrite Z.add_0_r.
  - rewrite (IH (start + 1) k Hk). do 3 f_equal. lia.
Qed.

(** The values [x or '-'] replaces by the placeholder. *)
Lemma truthy_false_iff d :
  truthy d = false
  ↔ d = JNull ∨ d = JStr [] ∨ d = JBool false ∨ d = JNum 0
    ∨ d = JArr [] ∨ d = JObj ∅.
Proof.
  split.
  - destruct d as [|b|n|s|l|m]; simpl; intros Hd.
    + by left.
    + destruct b; [done|]. right; right; by left.
    + apply negb_false_iff, Z.eqb_eq in Hd as ->. do 3 right; by left.
    + destruct s; [|done]. right; by left.
    + destruct l; [|done]. do 4 right; by left.
    + apply negb_false_iff, bool_decide_eq_true in Hd as ->. by do 5 right.
  - by intros [-> | [-> | [-> | [-> | [-> | ->]]]]].
Qed.

(** C4, as amended: on the empty list [build_news_context] returns the fixed
    sentence; on a non-empty list it returns the header line and, joined to it
    by newlines, one entry per article in input order, entry [k] (from 0)
    being the line numbered [k + 1],
    ["{index}. [{title}]({url}) — {source} — {publishedAt}"], a newline, and the
    indented summary line, which shows the description, or ["-"] when the
    description is absent or empty (falsy: [None], [""], or another value
    that Python counts as false). *)
Theorem build_news_context_format `{Builtins} :
  build_news_context []
  = lit "Tidak ada artikel relevan yang ditemukan dalam jangka waktu yang ditentukan."
  ∧ (∀ a rest, ∃ entries,
      build_news_context (a :: rest)
      = join [NL] (lit "Artikel Berita Terkait (ringkasan singkat):" :: entries)
      ∧ length entries = length (a :: rest)
      ∧ (∀ k ak, (a :: rest) !! k = Some ak →
          entries !! k
          = Some (str_of_int (Z.of_nat k + 1) ++ lit ". [" ++ py_str (judul ak)
                  ++ lit "](" ++ py_str (url ak) ++ lit ") " ++ [EM_DASH]
                  ++ lit " " ++ py_str (sumber ak) ++ lit " " ++ [EM_DASH]
                  ++ lit " " ++ py_str (publishedAt ak) ++ [NL]
                  ++ lit "   Ringkas: "
                  ++ (if truthy (ringkas ak) then py_str (ringkas ak)
                      else lit "-"))))
  ∧ ∀ d, truthy d = false
         ↔ d = JNull ∨ d = JStr [] ∨ d = JBool false ∨ d = JNum 0
           ∨ d = JArr [] ∨ d = JObj ∅.
Proof.
  split; [reflexivity|]. split; [|apply truthy_false_iff]. intros a rest.
  exists (map (fun ia => article_entry ia.1 ia.2) (enumerate 1 (a :: rest))).
  split; [|split].
  - unfold build_news_context. by rewrite fold_left_snoc_map.
  - by rewrite length_map, length_enumerate.
  - intros k ak Hk.
    rewrite (enumerate_lookup _ _ 1 k ak Hk). cbn [fst snd].
    unfold article_entry, or_dash. by rewrite (Z.add_comm 1).
Qed.

(** C4, as stated, fails for a description that is present but empty, as
    the provider may send it: the summary line shows the placeholder, not the
    (empty) description. *)
Lemma empty_description_shows_dash :
  let entry := lit "1. [IHSG menguat](https://example.com/ihsg) " ++ [EM_DASH]
               ++ lit " Kontan " ++ [EM_DASH] ++ lit " 2024-01-08T02:00:00Z" in
  normalize_article empty_description_item = inr (sample_article (JStr []))
  ∧ @build_news_context demo_builtins [sample_article (JStr [])]
    = join [NL] [NEWS_HEADER; entry; lit "   Ringkas: -"]
  ∧ @claimed_summary demo_builtins (sample_article (JStr [])) = []
  ∧ @build_news_context demo_builtins [sample_article (JStr [])]
    ≠ join [NL] [NEWS_HEADER; entry;
                 lit "   Ringkas: "
                 ++ @claimed_summary demo_builtins (sample_article (JStr []))].
Proof.
  intros entry. split; [by vm_compute|]. split; [by vm_compute|].
  split; [by vm_compute|]. vm_compute. discriminate.
Qed.

(** ** Normalisation of the provider's articles *)

(** An article object whose ["source"] is missing or an object is
    normalised without an exception; every field that is missing, or null,
    comes out as [None]. *)
Lemma normalize_article_object (m : gmap str json) :
  m !! lit "source" = None ∨ (∃ src, m !! lit "source" = Some (JObj src)) →
  ∃ art, normalize_article (JObj m) = inr art
         ∧ judul art = from_option id JNull (m !! lit "title")
         ∧ url art = from_option id JNull (m !! lit "url")
         ∧ publishedAt art = from_option id JNull (m !! lit "publishedAt")
         ∧ ringkas art = from_option id JNull (m !! lit "description")
         ∧ (m !! lit "source" = None → sumber art = JNull)
         ∧ (∀ src, m !! lit "source" = Some (JObj src) →
                   sumber art = from_option id JNull (src !! lit "name")).
Proof.
  intros [Hs | [src Hs]]; unfold normalize_article; cbn; rewrite Hs; cbn.
  - eexists. split; [reflexivity|]. cbn. repeat split; try done.
  - eexists. split; [reflexivity|]. cbn. repeat split; try done.
    by intros src' [= ->].
Qed.

Lemma normalize_articles_objects (items : list json) :
  Forall (fun a => ∃ m, a = JObj m
                        ∧ (m !! lit "source" = None
                           ∨ ∃ src, m !! lit "source" = Some (JObj src)))
         items →
  ∃ arts, normalize_articles (JArr items) = inr arts
          ∧ length arts = length items.
Proof.
  unfold normalize_articles. cbn -[normalize_article].
  induction 1 as [|a items (m & -> & Hm) _ (arts & IH & Hlen)];
    cbn -[normalize_article].
  - by exists [].
  - destruct (normalize_article_object m Hm) as (art & -> & _).
    cbn -[normalize_article]. rewrite IH. cbn.
    exists (art :: arts). split; [done|]. simpl. by f_equal.
Qed.

(** A ["source"] that is present but not an object stops the normalisation
    of the article: the default [{}] only replaces a missing key. *)
Lemma normalize_article_null_source (m : gmap str json) :
  m !! lit "source" = Some JNull →
  normalize_article (JObj m) = inl AttributeError.
Proof. intros Hs. unfold normalize_article. cbn. by rewrite Hs. Qed.

(** C5, at the payload [{"status": "ok", "articles": [{"title": "IHSG
    menguat", "source": null}]}]: the normalisation of the article raises
    [AttributeError], so [fetch_news] raises it and [/news] answers with a bare
    500 instead of a normalised record whose source is absent. *)
Theorem null_source_raises :
  normalize_article
    (JObj {[ lit "title" := JStr (lit "IHSG menguat"); lit "source" := JNull ]})
  = inl AttributeError
  ∧ outcome (@fetch_news demo_builtins null_source_world
               (lit "IHSG") (lit "id") 7 8)
    = inl AttributeError
  ∧ (@app demo_builtins null_source_world
       (PostNews (plain_raw_news (lit "IHSG")))).2
    = InternalServerError500.
Proof. by vm_compute. Qed.

(** ** The suggestions of [/suggest-questions] *)

Lemma existsb_eqb_elem_of (c : char) (l : str) :
  existsb (N.eqb c) l = true ↔ c ∈ l.
Proof.
  rewrite existsb_exists. split.
  - intros (x & Hin & Heq). apply N.eqb_eq in Heq as ->.
    by apply list_elem_of_In.
  - intros Hin. exists c. split; [by apply list_elem_of_In | apply N.eqb_refl].
Qed.

Lemma forallb_Forall_true (p : char → bool) (s : str) :
  forallb p s = true ↔ Forall (fun c => p c = true) s.
Proof.
  rewrite forallb_forall, Forall_forall.
  split; intros Hall x Hx; apply Hall; by apply list_elem_of_In.
Qed.

(** A line survives the filter exactly when it is not made of whitespace. *)
Lemma not_blank_iff (s : str) :
  truthy_str (strip s) = true ↔ ¬ Forall (fun c => isspace c = true) s.
Proof.
  rewrite <- forallb_Forall_true, <- (strip_by_nil isspace). unfold strip.
  by destruct (strip_by isspace s).
Qed.

(** Within a line, which holds no newline, the set of [strip("- •\n ")]
    comes down to hyphen, bullet and space. *)
Lemma bullet_char_in_line (s : str) (c : char) :
  NL ∉ s → c ∈ s →
  existsb (N.eqb c) BULLET_CHARS = true ↔ c ∈ [HYPHEN; BULLET; SPACE].
Proof.
  intros Hnl Hc. rewrite existsb_eqb_elem_of. unfold BULLET_CHARS.
  rewrite !elem_of_cons, !elem_of_nil.
  split; [|tauto].
  intros [-> | [-> | [-> | [-> | [-> | []]]]]]; tauto.
Qed.

(** C9, as amended: the suggestions are the lines of the model's text (the
    text split on newlines) that are not whitespace-only, in order, each with
    the characters ["-"], ["•"] and space stripped from both of its ends, not
    only from its start; a suggestion is non-empty whenever its line holds a
    character other than these three. *)
Theorem suggestions_stripped_lines (teks : str) :
  let lines := split NL teks in
  let kept := filter (fun s => ¬ Forall (fun c => isspace c = true) s) lines in
  join [NL] lines = teks
  ∧ length (parse_suggestions teks) = length kept
  ∧ ∀ k s, kept !! k = Some s →
      ∃ pre out post,
        parse_suggestions teks !! k = Some out
        ∧ s = pre ++ out ++ post
        ∧ Forall (fun c => c ∈ [HYPHEN; BULLET; SPACE]) pre
        ∧ Forall (fun c => c ∈ [HYPHEN; BULLET; SPACE]) post
        ∧ (∀ c, head out = Some c ∨ last out = Some c →
                c ∉ [HYPHEN; BULLET; SPACE])
        ∧ ((∃ c, c ∈ s ∧ c ∉ [HYPHEN; BULLET; SPACE]) → out ≠ []).
Proof.
  intros lines kept.
  assert (parse_suggestions teks = strip_chars BULLET_CHARS <$> kept) as Hparse.
  { unfold parse_suggestions, kept, lines.
    rewrite (list_filter_iff _ (fun s => ¬ Forall (fun c => isspace c = true) s));
      [reflexivity | apply not_blank_iff]. }
  split; [apply join_split|]. rewrite Hparse. split; [apply length_fmap|].
  intros k s Hk.
  assert (NL ∉ s) as Hnl.
  { apply (split_no_sep NL teks).
    apply list_elem_of_lookup_2 in Hk. unfold kept in Hk.
    by apply list_elem_of_filter in Hk as [_ Hk]. }
  set (p := fun c => existsb (N.eqb c) BULLET_CHARS).
  destruct (strip_by_split p s) as (pre & post & Hs & Hpre & Hpost).
  exists pre, (strip_chars BULLET_CHARS s), post.
  split.
  { rewrite list_lookup_fmap.
    exact (f_equal (fmap (strip_chars BULLET_CHARS)) Hk). }
  split; [exact Hs|].
  assert (∀ part, (∀ c, c ∈ part → c ∈ s) → forallb p part = true →
                  Forall (fun c => c ∈ [HYPHEN; BULLET; SPACE]) part) as Hrun.
  { intros part Hsub Hall. apply forallb_Forall_true in Hall.
    rewrite Forall_forall in *. intros c Hc.
    apply (bullet_char_in_line s c Hnl (Hsub c Hc)). by apply Hall. }
  split; [|split; [|split]].
  - apply Hrun; [|done]. intros c Hc. rewrite Hs. apply elem_of_app. by left.
  - apply Hrun; [|done]. intros c Hc. rewrite Hs.
    apply elem_of_app. right. apply elem_of_app. by right.
  - intros c Hends.
    assert (c ∈ strip_chars BULLET_CHARS s) as Hin.
    { destruct Hends as [Hh | Hl].
      - destruct (strip_chars BULLET_CHARS s); [done|].
        injection Hh as ->. by left.
      - apply last_Some in Hl as [l' ->]. apply elem_of_app. right. by left. }
    assert (c ∈ s) as Hcs.
    { rewrite Hs. apply elem_of_app. right. apply elem_of_app. by left. }
    rewrite <- (bullet_char_in_line s c Hnl Hcs).
    assert (p c = false) as Hp.
    { destruct Hends as [Hh | Hl].
      - destruct (strip_chars BULLET_CHARS s) as [|c' r] eqn:E; [done|].
        injection Hh as ->. exact (strip_by_head p s c r E).
      - exact (strip_by_last p s c Hl). }
    unfold p in Hp. by rewrite Hp.
  - intros (c & Hcs & Hc) Hnil.
    apply (strip_by_nil p) in Hnil. apply forallb_Forall_true in Hnil.
    rewrite Forall_forall in Hnil.
    apply Hc, (bullet_char_in_line s c Hnl Hcs), Hnil, Hcs.
Qed.

(** C9, as stated, fails twice on the text ["- a -"], newline, ["---"]: the
    first line loses its trailing dash as well, and the second line, which is
    not blank, is stripped down to an empty suggestion. *)
Lemma suggestions_trailing_and_empty :
  let teks := lit "- a -" ++ [NL] ++ lit "---" in
  parse_suggestions teks = [lit "a"; []]
  ∧ claimed_suggestions teks = [lit "a -"; []]
  ∧ parse_suggestions teks ≠ claimed_suggestions teks
  ∧ [] ∈ parse_suggestions teks.
Proof.
  intros teks. split; [by vm_compute|]. split; [by vm_compute|].
  split; [vm_compute; discriminate|]. vm_compute. right. left.
Qed.

(** * Further properties of the handlers *)

(** ** Validation, both ways *)

Lemma check_range_nil field lo hi v :
  check_range field lo (Some hi) v = [] ↔ lo ≤ v ≤ hi.
Proof.
  unfold check_range.
  destruct (Z.ltb_spec v lo), (Z.ltb_spec hi v); split; try done; lia.
Qed.

Lemma check_range_lower_nil field lo v :
  check_range field lo None v = [] ↔ lo ≤ v.
Proof.
  unfold check_range. destruct (Z.ltb_spec v lo); split; try done; lia.
Qed.

Lemma check_profile_nil (p : option InvestorProfile) :
  check_profile p = []
  ↔ ∀ pr h, p = Some pr → horizon_bulan pr = Some h → 1 ≤ h.
Proof.
  unfold check_profile. destruct p as [pr|]; [|by split].
  destruct (horizon_bulan pr) as [h|] eqn:Hh.
  - rewrite check_range_lower_nil. split.
    + intros Hle pr' h' [= <-]. rewrite Hh. by intros [= <-].
    + intros Hall. by apply (Hall pr h).
  - split; [|done]. intros _ pr' h' [= <-]. by rewrite Hh.
Qed.

Lemma validate_analyze_inr_iff raw req :
  validate_analyze raw = inr req
  ↔ raw_pertanyaan raw = Some (pertanyaan req)
    ∧ 1 ≤ default 7 (raw_hari_kebelakang raw) ≤ 30
    ∧ (∀ pr h, raw_profil raw = Some pr → horizon_bulan pr = Some h → 1 ≤ h)
    ∧ req = {| pertanyaan := pertanyaan req;
               tickers := raw_tickers raw;
               kata_kunci := raw_kata_kunci raw;
               hari_kebelakang := default 7 (raw_hari_kebelakang raw);
               bahasa := default (lit "id") (raw_bahasa raw);
               profil := raw_profil raw |}.
Proof.
  unfold validate_analyze.
  rewrite <- (check_range_nil (lit "hari_kebelakang")), <- check_profile_nil.
  destruct (raw_pertanyaan raw) as [qs|]; simpl.
  - destruct (check_range _ _ _ _) as [|v vs]; simpl.
    + destruct (check_profile _) as [|v vs]; simpl.
      * split; [by intros [= <-]|].
        intros (Hq & _ & _ & Hreq). injection Hq as ->.
        exact (f_equal inr (eq_sym Hreq)).
      * split; [done | by intros (_ & _ & ? & _)].
    + split; [done | by intros (_ & ? & _)].
  - split; [done | by intros (? & _)].
Qed.

Lemma validate_news_inr_iff raw query :
  validate_news raw = inr query
  ↔ raw_q raw = Some (q query)
    ∧ 1 ≤ default 1 (raw_halaman raw) ≤ 5
    ∧ query = {| q := q query;
                 dari := raw_dari raw;
                 sampai := raw_sampai raw;
                 nq_bahasa := default (lit "id") (raw_nq_bahasa raw);
                 halaman := default 1 (raw_halaman raw) |}.
Proof.
  unfold validate_news.
  rewrite <- (check_range_nil (lit "halaman")).
  destruct (raw_q raw) as [qs|]; simpl.
  - destruct (check_range _ _ _ _) as [|v vs]; simpl.
    + split; [by intros [= <-]|].
      intros (Hq & _ & Hquery). injection Hq as ->.
      exact (f_equal inr (eq_sym Hquery)).
    + split; [done | by intros (_ & ? & _)].
  - split; [done | by intros (? & _)].
Qed.



(** ** Normalisation, exactly *)

Lemma normalize_article_readable a :
  readable_item a = true → ∃ art, normalize_article a = inr art.
Proof.
  destruct a as [| | | | |m]; simpl; try done.
  destruct (m !! lit "source") as [v|] eqn:Hs.
  - destruct v as [| | | | |src]; try done. intros _.
    destruct (normalize_article_object m) as (art & Hart & _); eauto.
  - intros _. destruct (normalize_article_object m) as (art & Hart & _); eauto.
Qed.

Lemma normalize_article_unreadable a :
  readable_item a = false → normalize_article a = inl AttributeError.
Proof.
  destruct a as [| | | | |m]; simpl; try done.
  unfold normalize_article. cbn.
  destruct (m !! lit "source") as [v|]; [|done].
  by destruct v.
Qed.

(** The normalisation of one item raises exactly when the item is not
    readable, and then it raises [AttributeError] and nothing else. *)
Theorem normalize_article_raises_iff a e :
  normalize_article a = inl e
  ↔ e = AttributeError ∧ readable_item a = false.
Proof.
  destruct (readable_item a) eqn:Hr.
  - destruct (normalize_article_readable a Hr) as [art ->].
    split; [done | by intros [_ ?]].
  - rewrite (normalize_article_unreadable a Hr).
    split; [by intros [= <-] | by intros [-> _]].
Qed.

Lemma mapM_result_cons {A B} (f : A → result B) x l :
  mapM f (x :: l) = y ← f x; k ← mapM f l; mret (y :: k).
Proof. reflexivity. Qed.

Lemma normalize_items_inr_iff items arts :
  mapM normalize_article items = inr arts
  ↔ Forall2 (fun a art => normalize_article a = inr art) items arts.
Proof.
  revert arts. induction items as [|a items IH]; intros arts.
  - cbn. split.
    + intros [= <-]. constructor.
    + intros Hall. by apply Forall2_nil_inv_l in Hall as ->.
  - rewrite mapM_result_cons. split.
    + destruct (normalize_article a) as [e|art] eqn:Ha; cbn; [done|].
      destruct (mapM normalize_article items) as [e|arts'] eqn:Hm; cbn; [done|].
      intros [= <-]. constructor; [done|]. by apply IH.
    + intros Hall. apply Forall2_cons_inv_l in Hall
        as (art & arts' & Ha & Hall & ->).
      apply IH in Hall. rewrite Ha. cbn. by rewrite Hall.
Qed.


(** The comprehension over a list of items succeeds exactly with one record
    per item, in the order of the items. *)
Theorem normalize_articles_inr_iff items arts :
  normalize_articles (JArr items) = inr arts
  ↔ Forall2 (fun a art => normalize_article a = inr art) items arts.
Proof. unfold normalize_articles. cbn -[mapM]. apply normalize_items_inr_iff. Qed.

Lemma normalize_items_raises items e :
  mapM normalize_article items = inl e
  ↔ e = AttributeError ∧ forallb readable_item items = false.
Proof.
  induction items as [|a items IH].
  - cbn. split; [done | by intros [_ ?]].
  - rewrite mapM_result_cons. simpl forallb.
    destruct (readable_item a) eqn:Hr.
    + destruct (normalize_article_readable a Hr) as [art ->]. cbn -[mapM].
      destruct (mapM normalize_article items) as [e'|arts'] eqn:Hm; cbn.
      * rewrite <- IH. split; [by intros [= <-] | by intros [= <-]].
      * split; [done|]. intros Hne. by apply IH in Hne.
    + rewrite (normalize_article_unreadable a Hr). cbn.
      split; [by intros [= <-] | by intros [-> _]].
Qed.

(** It raises exactly when some item is not readable, and then it raises
    [AttributeError]. *)
Theorem normalize_articles_raises_iff items e :
  normalize_articles (JArr items) = inl e
  ↔ e = AttributeError ∧ forallb readable_item items = false.
Proof. unfold normalize_articles. cbn -[mapM]. apply normalize_items_raises. Qed.

(** A readable item is normalised to the record of its five fields, each
    [None] when its key is missing; the source name is read from the source
    object and is [None] when the source or its name is missing. *)
Theorem normalize_article_fields (m : gmap str json) :
  readable_item (JObj m) = true →
  normalize_article (JObj m)
  = inr {| judul := from_option id JNull (m !! lit "title");
           sumber := match m !! lit "source" with
                     | Some (JObj src) => from_option id JNull (src !! lit "name")
                     | _ => JNull
                     end;
           url := from_option id JNull (m !! lit "url");
           publishedAt := from_option id JNull (m !! lit "publishedAt");
           ringkas := from_option id JNull (m !! lit "description") |}.
Proof.
  simpl. unfold normalize_article. cbn.
  destruct (m !! lit "source") as [v|]; [|done].
  by destruct v.
Qed.

Lemma normalize_article_fields_witness :
  normalize_article
    (JObj {[ lit "title" := JStr (lit "IHSG menguat");
             lit "source" := JObj {[ lit "id" := JNull ]} ]})
  = inr {| judul := JStr (lit "IHSG menguat"); sumber := JNull;
           url := JNull; publishedAt := JNull; ringkas := JNull |}.
Proof.
  pose proof (normalize_article_fields
                {[ lit "title" := JStr (lit "IHSG menguat");
                   lit "source" := JObj {[ lit "id" := JNull ]} ]}
                eq_refl) as Hfields.
  vm_compute in Hfields. vm_compute. exact Hfields.
Defined.

(** A value of ["articles"] that cannot be iterated raises [TypeError]; the
    normalisation raises nothing but these two errors. *)
Lemma normalize_articles_exn v e :
  normalize_articles v = inl e →
  e = AttributeError ∨ e = TypeError.
Proof.
  unfold normalize_articles.
  destruct v as [|b|n|s|items|m]; cbn -[mapM]; try (intros [= <-]; by right).
  - destruct s as [|c s]; cbn; intros [= <-]; by left.
  - intros Hi.
    apply (normalize_items_raises items e) in Hi as [-> _]. by left.
  - destruct (map_to_list m) as [|kv l]; cbn; intros [= <-]; by left.
Qed.

(** ** The handlers, outcome by outcome *)

Lemma status_ok_or_not (m : gmap str json) :
  m !! lit "status" = Some (JStr (lit "ok"))
  ∨ m !! lit "status" ≠ Some (JStr (lit "ok")).
Proof.
  destruct (m !! lit "status") as [v|]; [|by right].
  destruct v as [| | |s| |]; try by right.
  destruct (decide (s = lit "ok")) as [->|Hne]; [by left|].
  right. by intros [= ->].
Qed.

Section Outcomes.
Context `{Builtins}.

Lemma fetch_news_provider_raises w q language from_days page_size e :
  get_everything w (fetch_params w q language from_days page_size) = inl e →
  fetch_news w q language from_days page_size
  = ([NewsCall (fetch_params w q language from_days page_size)], inl e).
Proof.
  intros Hres. unfold fetch_news, call_news.
  fold (fetch_params w q language from_days page_size). by rewrite Hres.
Qed.

Lemma fetch_news_not_dict w q language from_days page_size res :
  get_everything w (fetch_params w q language from_days page_size) = inr res →
  (∀ m, res ≠ JObj m) →
  fetch_news w q language from_days page_size
  = ([NewsCall (fetch_params w q language from_days page_size)],
     inl AttributeError).
Proof.
  intros Hres Hnd. unfold fetch_news, call_news.
  fold (fetch_params w q language from_days page_size). rewrite Hres.
  destruct res as [| | | | |m]; try done. by destruct (Hnd m).
Qed.

(** Whatever the provider does, [fetch_news] ends with the articles, with
    the 502, with one of the two run-time errors, or with the exception the
    provider's client raised. *)
Lemma fetch_news_outcome w q language from_days page_size :
  (∃ arts, outcome (fetch_news w q language from_days page_size) = inr arts)
  ∨ (∃ d, outcome (fetch_news w q language from_days page_size)
          = inl (HTTPException 502 d))
  ∨ outcome (fetch_news w q language from_days page_size) = inl AttributeError
  ∨ outcome (fetch_news w q language from_days page_size) = inl TypeError
  ∨ (∃ e, get_everything w (fetch_params w q language from_days page_size)
          = inl e
          ∧ outcome (fetch_news w q language from_days page_size) = inl e).
Proof.
  destruct (get_everything w (fetch_params w q language from_days page_size))
    as [e|res] eqn:Hres.
  - do 4 right. exists e.
    by rewrite (fetch_news_provider_raises _ _ _ _ _ e Hres).
  - destruct res as [| | | | |m];
      try (right; right; left;
           by rewrite (fetch_news_not_dict _ _ _ _ _ _ Hres)).
    destruct (status_ok_or_not m) as [Hok|Hno].
    + rewrite (fetch_news_ok _ _ _ _ _ m Hres Hok). unfold outcome. simpl.
      destruct (normalize_articles _) as [e|arts] eqn:Hn; [|left; eauto].
      apply normalize_articles_exn in Hn as [-> | ->].
      * right; right; by left.
      * do 3 right; by left.
    + right; left. rewrite (fetch_news_not_ok _ _ _ _ _ m Hres Hno). eauto.
Qed.

(** Once the articles are fetched, [analyze] makes the generation call with
    the prompt built from them and ends as that call ends. *)
Lemma analyze_after_fetch w req arts :
  outcome (fetch_news w (analyze_query req) (bahasa req)
                      (hari_kebelakang req) 8) = inr arts →
  analyze w req
  = ([NewsCall (analyze_news_params w req);
      GeminiCall (GenParts (analyze_parts req arts))],
     match generate_content w (GenParts (analyze_parts req arts)) with
     | inr teks =>
         inr (AnalyzeBody (pertanyaan req) (analyze_query req)
                          (Z.of_nat (length arts)) teks ANALYZE_DISCLAIMER)
     | inl e => inl (gemini_error e)
     end).
Proof.
  intros Hout. unfold analyze.
  pose proof (fetch_news_calls w (analyze_query req) (bahasa req)
                (hari_kebelakang req) 8) as Hc.
  destruct (fetch_news w _ _ _ _) as [t r]. unfold calls, outcome in *.
  simpl in *. subst. unfold call_gemini, try_except, analyze_parts. cbn.
  by destruct (generate_content w _).
Qed.

Lemma news_calls w query :
  calls (news w query) = [NewsCall (news_news_params query)].
Proof.
  unfold news, call_news, calls. fold (news_news_params query). cbn.
  destruct (get_everything w _) as [e|res]; cbn; [done|].
  destruct (py_get res _ _) as [e|st]; cbn; [done|].
  destruct (eq_str st _); cbn; [|done].
  destruct (py_get res _ _) as [e|items]; cbn; [done|].
  destruct (normalize_articles items); cbn; [done|].
  by destruct (py_get res _ _).
Qed.

Lemma news_provider_raises w query e :
  get_everything w (news_news_params query) = inl e →
  news w query = ([NewsCall (news_news_params query)], inl e).
Proof.
  intros Hres. unfold news, call_news.
  fold (news_news_params query). by rewrite Hres.
Qed.

Lemma news_ok w query m :
  get_everything w (news_news_params query) = inr (JObj m) →
  m !! lit "status" = Some (JStr (lit "ok")) →
  news w query
  = ([NewsCall (news_news_params query)],
     match normalize_articles (from_option id (JArr []) (m !! lit "articles")) with
     | inr arts =>
         inr (NewsBody (from_option id (JNum 0) (m !! lit "totalResults")) arts)
     | inl e => inl e
     end).
Proof.
  intros Hres Hst. unfold news, call_news.
  fold (news_news_params query). rewrite Hres. cbn.
  rewrite Hst. cbn. rewrite bool_decide_true by done. cbn.
  by destruct (normalize_articles _).
Qed.

Lemma news_outcome w query :
  (∃ b, outcome (news w query) = inr b)
  ∨ (∃ d, outcome (news w query) = inl (HTTPException 502 d))
  ∨ outcome (news w query) = inl AttributeError
  ∨ outcome (news w query) = inl TypeError
  ∨ (∃ e, get_everything w (news_news_params query) = inl e
          ∧ outcome (news w query) = inl e).
Proof.
  destruct (get_everything w (news_news_params query)) as [e|res] eqn:Hres.
  - do 4 right. exists e. by rewrite (news_provider_raises _ _ e Hres).
  - destruct res as [| | | | |m];
      try (right; right; left; unfold news, call_news;
           fold (news_news_params query); by rewrite Hres).
    destruct (status_ok_or_not m) as [Hok|Hno].
    + rewrite (news_ok _ _ m Hres Hok). unfold outcome. simpl.
      destruct (normalize_articles _) as [e|arts] eqn:Hn; [|left; eauto].
      apply normalize_articles_exn in Hn as [-> | ->].
      * right; right; by left.
      * do 3 right; by left.
    + right; left. rewrite (news_not_ok _ _ m Hres Hno). eauto.
Qed.

End Outcomes.

(** ** The routes, end to end *)

Section EndToEnd.
Context `{Builtins}.


(** When the payload has status ["ok"] and no article, because the key
    ["articles"] is missing or holds the empty list, [/analyze] still asks the
    model, with the fixed no-articles sentence as news context, and reports
    zero articles. *)
Theorem analyze_without_articles w raw req m :
  validate_analyze raw = inr req →
  get_everything w (analyze_news_params w req) = inr (JObj m) →
  m !! lit "status" = Some (JStr (lit "ok")) →
  m !! lit "articles" = None ∨ m !! lit "articles" = Some (JArr []) →
  app w (PostAnalyze raw)
  = ([NewsCall (analyze_news_params w req);
      GeminiCall (GenParts (build_prompt (pertanyaan req) (profil req)
                                         NO_ARTICLES))],
     match generate_content w
             (GenParts (build_prompt (pertanyaan req) (profil req)
                                     NO_ARTICLES)) with
     | inr teks =>
         Ok200 (AnalyzeBody (pertanyaan req) (analyze_query req) 0 teks
                            ANALYZE_DISCLAIMER)
     | inl e =>
         HttpError 500 (lit "Gagal memanggil Gemini: " ++ exn_str e)
     end).
Proof.
  intros Hv Hres Hok Harts. simpl. unfold post_analyze, route. rewrite Hv.
  rewrite (analyze_after_fetch w req []).
  - unfold analyze_parts. simpl. by destruct (generate_content w _).
  - unfold analyze_news_params in Hres.
    rewrite (fetch_news_ok _ _ _ _ _ m Hres Hok). unfold outcome. simpl.
    by destruct Harts as [-> | ->].
Qed.

(** When the payload for a valid [/news] request has status ["ok"] and a
    list of readable articles, the response is 200 with the normalised
    articles and the provider's [totalResults], or [0] when that key is
    missing; the news call is the only outbound call. *)
Theorem news_with_articles w raw query m items arts :
  validate_news raw = inr query →
  get_everything w (news_news_params query) = inr (JObj m) →
  m !! lit "status" = Some (JStr (lit "ok")) →
  from_option id (JArr []) (m !! lit "articles") = JArr items →
  normalize_articles (JArr items) = inr arts →
  app w (PostNews raw)
  = ([NewsCall (news_news_params query)],
     Ok200 (NewsBody (from_option id (JNum 0) (m !! lit "totalResults")) arts)).
Proof.
  intros Hv Hres Hok Hitems Hn. simpl. unfold post_news, route. rewrite Hv.
  rewrite (news_ok w query m Hres Hok), Hitems, Hn. reflexivity.
Qed.

(** When the provider's client raises its own exception on the news call,
    [/analyze] and [/news] answer with a bare 500, and the news call is the
    only outbound call. *)
Theorem provider_exception_is_500 w r p e :
  news_call_of w r = Some p →
  get_everything w p = inl e →
  is_http_exception e = false →
  app w r = ([NewsCall p], InternalServerError500).
Proof.
  intros Hcall Hres He.
  destruct r as [|raw|raw|topik]; simpl in *; [done| | |done].
  - unfold post_analyze, route.
    destruct (validate_analyze raw) as [errs|req]; [done|].
    injection Hcall as <-.
    rewrite (analyze_fetch_raises w req e).
    + by destruct e.
    + unfold analyze_news_params in Hres.
      by rewrite (fetch_news_provider_raises _ _ _ _ _ e Hres).
  - unfold post_news, route.
    destruct (validate_news raw) as [errs|query]; [done|].
    injection Hcall as <-.
    rewrite (news_provider_raises w query e Hres). by destruct e.
Qed.

(** A status-["ok"] payload with an unreadable article (one that is not an
    object, or whose ["source"] is present and not an object) makes [/analyze]
    and [/news] answer with a bare 500; [/analyze] then makes no generation
    call. *)
Theorem unreadable_article_is_500 w r p m items :
  news_call_of w r = Some p →
  get_everything w p = inr (JObj m) →
  m !! lit "status" = Some (JStr (lit "ok")) →
  m !! lit "articles" = Some (JArr items) →
  forallb readable_item items = false →
  app w r = ([NewsCall p], InternalServerError500).
Proof.
  intros Hcall Hres Hok Hitems Hbad.
  assert (normalize_articles (JArr items) = inl AttributeError) as Hn.
  { unfold normalize_articles. cbn -[mapM]. by apply normalize_items_raises. }
  destruct r as [|raw|raw|topik]; simpl in *; [done| | |done].
  - unfold post_analyze, route.
    destruct (validate_analyze raw) as [errs|req]; [done|].
    injection Hcall as <-.
    rewrite (analyze_fetch_raises w req AttributeError); [done|].
    unfold analyze_news_params in Hres.
    rewrite (fetch_news_ok _ _ _ _ _ m Hres Hok). unfold outcome. simpl.
    by rewrite Hitems.
  - unfold post_news, route.
    destruct (validate_news raw) as [errs|query]; [done|].
    injection Hcall as <-.
    rewrite (news_ok w query m Hres Hok), Hitems. simpl. by rewrite Hn.
Qed.

End EndToEnd.

(** ** What the service never does *)

Section Bounds.
Context `{Builtins}.

Lemma suggest_questions_calls w topik :
  ∃ prompt, calls (suggest_questions w topik) = [GeminiCall (GenText prompt)].
Proof.
  unfold suggest_questions, call_gemini, try_except, calls. cbn.
  destruct (generate_content w _); cbn; eauto.
Qed.

Lemma route_calls {Raw Req} (validate : Raw → list violation + Req)
    (handler : Req → M body) raw :
  (route validate handler raw).1 = []
  ∨ ∃ req, validate raw = inr req
           ∧ (route validate handler raw).1 = calls (handler req).
Proof.
  unfold route, calls. destruct (validate raw) as [errs|req]; [by left|].
  right. exists req. split; [done|]. by destruct (handler req).
Qed.

(** For every request and whatever the providers answer, the service makes
    no outbound call, or one news call, or one generation call, or one news
    call followed by one generation call: never two calls to one provider,
    never a generation call before the news call. *)
Theorem app_calls_shape w r :
  (app w r).1 = []
  ∨ (∃ p, (app w r).1 = [NewsCall p])
  ∨ (∃ g, (app w r).1 = [GeminiCall g])
  ∨ (∃ p g, (app w r).1 = [NewsCall p; GeminiCall g]).
Proof.
  destruct r as [|raw|raw|topik]; simpl.
  - by left.
  - unfold post_analyze.
    destruct (route_calls validate_analyze (analyze w) raw)
      as [-> | (req & _ & ->)]; [by left|].
    destruct (analyze_calls w req) as [-> | [g ->]]; eauto 6.
  - unfold post_news.
    destruct (route_calls validate_news (news w) raw)
      as [-> | (query & _ & ->)]; [by left|].
    rewrite news_calls. eauto.
  - unfold get_suggest_questions.
    destruct (suggest_questions_calls w topik) as [prompt Hc].
    destruct (suggest_questions w topik) as [t res]. unfold calls in Hc.
    simpl in *. subst. eauto 6.
Qed.


(** As long as the provider's client raises only exceptions of its own, the
    service answers every request with one of the statuses 200, 422, 500 and
    502. *)
Theorem app_status_codes w r :
  (∀ p e, get_everything w p = inl e → is_http_exception e = false) →
  status_of (app w r).2 ∈ [200; 422; 500; 502].
Proof.
  intros Hprov.
  assert (∀ (t : list call) (res : result body),
            ((∃ b, res = inr b) ∨ (∃ d, res = inl (HTTPException 502 d))
             ∨ (∃ d, res = inl (HTTPException 500 d))
             ∨ (∃ e, res = inl e ∧ is_http_exception e = false)) →
            status_of (respond res) ∈ [200; 422; 500; 502]) as Hstatus.
  { intros _ res [[b ->] | [[d ->] | [[d ->] | (e & -> & He)]]]; simpl.
    - by left.
    - do 3 right; by left.
    - do 2 right; by left.
    - destruct e; [done|..]; do 2 right; by left. }
  destruct r as [|raw|raw|topik]; simpl.
  - by left.
  - unfold post_analyze, route.
    destruct (validate_analyze raw) as [errs|req]; simpl; [right; by left|].
    destruct (analyze w req) as [t res] eqn:Ha. simpl.
    apply (Hstatus t).
    destruct (fetch_news_outcome w (analyze_query req) (bahasa req)
                (hari_kebelakang req) 8)
      as [[arts Hf] | [[d Hf] | [Hf | [Hf | (e & He & Hf)]]]].
    + rewrite (analyze_after_fetch w req arts Hf) in Ha.
      injection Ha as _ <-.
      destruct (generate_content w _); [right; right; left | left]; eauto.
    + rewrite (analyze_fetch_raises w req _ Hf) in Ha.
      injection Ha as _ <-. right; left; eauto.
    + rewrite (analyze_fetch_raises w req _ Hf) in Ha.
      injection Ha as _ <-. do 3 right; eauto.
    + rewrite (analyze_fetch_raises w req _ Hf) in Ha.
      injection Ha as _ <-. do 3 right; eauto.
    + rewrite (analyze_fetch_raises w req _ Hf) in Ha.
      injection Ha as _ <-. do 3 right. exists e. split; [done|].
      by apply (Hprov _ e He).
  - unfold post_news, route.
    destruct (validate_news raw) as [errs|query]; simpl; [right; by left|].
    destruct (news w query) as [t res] eqn:Hn. simpl.
    apply (Hstatus t).
    pose proof (news_outcome w query) as Hout. rewrite Hn in Hout.
    unfold outcome in Hout. simpl in Hout.
    destruct Hout as [[b ->] | [[d ->] | [-> | [-> | (e & He & ->)]]]]; eauto.
    + do 3 right. eauto.
    + do 3 right. eauto.
    + do 3 right. exists e. split; [done|]. by apply (Hprov _ e He).
  - unfold get_suggest_questions, suggest_questions, call_gemini, try_except.
    cbn. destruct (generate_content w _); cbn.
    + do 2 right; by left.
    + by left.
Qed.

End Bounds.

(** ** More on the news query and the news filters *)

(** The two one-sided requests of [/analyze]: with a non-empty keyword and no
    ticker at all the query sent is the keyword itself; with no usable
    keyword and at least one ticker it is the tickers joined by [" OR "]. *)
Theorem analyze_query_one_sided `{Builtins} w req :
  (∀ kw, kata_kunci req = Some kw → kw ≠ [] →
         tickers req = None ∨ tickers req = Some [] →
         news_queries (calls (analyze w req)) = [kw])
  ∧ (∀ t ts, kata_kunci req = None ∨ kata_kunci req = Some [] →
             tickers req = Some (t :: ts) →
             news_queries (calls (analyze w req))
             = [join (lit " OR ") (t :: ts)]).
Proof.
  rewrite analyze_news_queries. unfold analyze_query, analyze_terms. split.
  - intros kw -> Hne Htk. destruct kw as [|c kw]; [done|].
    by destruct Htk as [-> | ->].
  - intros t ts Hkw ->. by destruct Hkw as [-> | ->].
Qed.

(** The news call of a valid [/news] request carries the query string and
    the language of the body (["id"] when left out); a date bound is sent
    exactly as the body gives it, unchecked, and only when it is given and
    not empty. *)
Theorem news_call_passes_filters `{Builtins} w raw query :
  validate_news raw = inr query →
  ∃ p, (app w (PostNews raw)).1 = [NewsCall p]
       ∧ raw_q raw = Some (np_q p)
       ∧ np_language p = default (lit "id") (raw_nq_bahasa raw)
       ∧ (∀ d, np_from_param p = Some d ↔ raw_dari raw = Some d ∧ d ≠ [])
       ∧ (∀ d, np_to p = Some d ↔ raw_sampai raw = Some d ∧ d ≠ []).
Proof.
  intros Hv. exists (news_news_params query). simpl.
  unfold post_news, route. rewrite Hv.
  pose proof (news_calls w query) as Hc.
  destruct (news w query) as [t res]. unfold calls in Hc. simpl in *. subst t.
  apply validate_news_inr_iff in Hv as (Hq & _ & Hquery).
  assert (∀ (s : option str) d, nonempty s = Some d ↔ s = Some d ∧ d ≠ [])
    as Hne.
  { intros s d. unfold nonempty. destruct s as [[|c s]|]; simpl.
    - split; [done | by intros [[= <-] Hd]].
    - split; [by intros [= <-] | by intros [[= <-] _]].
    - split; [done | by intros [? _]]. }
  split; [done|]. split; [done|]. split; [by rewrite Hquery|].
  split; intros d; rewrite Hquery; simpl; apply Hne.
Qed.

(** ** [/suggest-questions], end to end *)


(** ** More on the suggestions *)

Lemma split_Forall (P : char → Prop) c s :
  P c → Forall (Forall P) (split c s) ↔ Forall P s.
Proof.
  intros Hc. induction s as [|x r IH]; simpl.
  - split; [constructor | by repeat constructor].
  - destruct (N.eqb_spec x c) as [->|Hne].
    + rewrite !Forall_cons, IH. split; [by intros [_ ?] | by intros [_ ?]].
    + pose proof (split_nonempty c r) as Hs.
      destruct (split c r) as [|h t]; [done|].
      rewrite !Forall_cons in *. rewrite <- IH. tauto.
Qed.

Lemma length_split c (s : list char) :
  length (split c s) = S (length (filter (fun x => x = c) s)).
Proof.
  induction s as [|x r IH]; [done|].
  rewrite filter_cons. simpl split. destruct (N.eqb_spec x c) as [->|Hne].
  - rewrite decide_True by done. simpl. by rewrite IH.
  - rewrite decide_False by done. rewrite <- IH.
    pose proof (split_nonempty c r). by destruct (split c r).
Qed.

Lemma filter_nil_Forall {A} (P : A → Prop) `{∀ x, Decision (P x)} (l : list A) :
  filter P l = [] ↔ Forall (fun x => ¬ P x) l.
Proof.
  induction l as [|x l IH].
  - split; [constructor | done].
  - rewrite filter_cons, Forall_cons. destruct (decide (P x)).
    + split; [done | by intros [? _]].
    + rewrite IH. tauto.
Qed.

(** The list of suggestions is empty exactly when the model's text is made
    of whitespace only (newlines included); in particular for the empty
    text. *)
Theorem parse_suggestions_nil_iff (teks : str) :
  parse_suggestions teks = [] ↔ Forall (fun c => isspace c = true) teks.
Proof.
  unfold parse_suggestions.
  rewrite <- (split_Forall _ NL teks) by reflexivity.
  split.
  - intros Hnil. apply map_eq_nil in Hnil.
    apply filter_nil_Forall in Hnil.
    eapply Forall_impl; [exact Hnil|]. intros s Hs. simpl in Hs.
    rewrite not_blank_iff in Hs. by apply dec_stable.
  - intros Hall. replace (filter _ _) with (@nil str); [done|].
    symmetry. apply filter_nil_Forall.
    eapply Forall_impl; [exact Hall|]. intros s Hs.
    rewrite not_blank_iff. by intros Hn.
Qed.

(** There are at most as many suggestions as the text has lines, one more
    than its newlines, and no suggestion contains a newline. *)
Theorem parse_suggestions_bounds (teks : str) :
  (length (parse_suggestions teks)
   ≤ S (length (filter (fun c => c = NL) (teks : list char))))%nat
  ∧ ∀ s, s ∈ parse_suggestions teks → NL ∉ s.
Proof.
  unfold parse_suggestions. split.
  - rewrite length_map, <- length_split. apply length_filter.
  - intros s Hs. apply list_elem_of_In, in_map_iff in Hs as (line & <- & Hline).
    apply list_elem_of_In, list_elem_of_filter in Hline as [_ Hline].
    apply split_no_sep in Hline.
    destruct (strip_by_split (fun c => existsb (N.eqb c) BULLET_CHARS) line)
      as (pre & post & Heq & _).
    intros Hin. apply Hline. rewrite Heq.
    apply elem_of_app. right. apply elem_of_app. by left.
Qed.

(** ** Rejection at entry, exactly *)



(** The horizon of the profile of a valid [/analyze] request is always
    shown as a number in the profile segment of the prompt: the placeholder
    stands only for a horizon that is absent. *)
Theorem profile_horizon_shown raw req pr h :
  validate_analyze raw = inr req →
  profil req = Some pr →
  horizon_bulan pr = Some h →
  profile_text pr
  = lit "Profil Investor:" ++ [NL]
    ++ lit "- Risiko: " ++ str_or_dash (risiko pr) ++ [NL]
    ++ lit "- Horizon (bulan): " ++ str_of_int h ++ [NL]
    ++ lit "- Fokus: " ++ str_or_dash (fokus pr) ++ [NL].
Proof.
  intros Hv Hp Hh.
  apply validate_analyze_inr_iff in Hv as (_ & _ & Hhor & Hreq).
  assert (1 ≤ h) as Hle.
  { apply (Hhor pr h); [|done]. rewrite Hreq in Hp. exact Hp. }
  unfold profile_text, int_or_dash. rewrite Hh.
  destruct (Z.eqb_spec h 0) as [->|_]; [lia | done].
Qed.

(** ** The properties above, at concrete requests *)


Lemma analyze_without_articles_witness :
  let raw := plain_raw (Some (lit "Apa kabar pasar?")) in
  let req := plain_request (lit "Apa kabar pasar?") in
  @app demo_builtins quiet_world (PostAnalyze raw)
  = ([NewsCall (@analyze_news_params demo_builtins quiet_world req);
      GeminiCall (GenParts (build_prompt (pertanyaan req) (profil req)
                                         NO_ARTICLES))],
     match generate_content quiet_world
             (GenParts (build_prompt (pertanyaan req) (profil req)
                                     NO_ARTICLES)) with
     | inr teks =>
         Ok200 (AnalyzeBody (pertanyaan req) (analyze_query req) 0 teks
                            ANALYZE_DISCLAIMER)
     | inl e =>
         HttpError 500 (lit "Gagal memanggil Gemini: " ++ exn_str e)
     end).
Proof.
  intros raw req.
  apply (@analyze_without_articles demo_builtins quiet_world raw req
           {[ lit "status" := JStr (lit "ok") ]}).
  - reflexivity.
  - reflexivity.
  - by vm_compute.
  - left. by vm_compute.
Defined.

Lemma news_with_articles_witness :
  let query := {| q := lit "IHSG"; dari := None; sampai := None;
                  nq_bahasa := lit "id"; halaman := 1 |} in
  @app demo_builtins articles_world (PostNews (plain_raw_news (lit "IHSG")))
  = ([NewsCall (news_news_params query)],
     Ok200 (NewsBody
              (from_option id (JNum 0) (articles_fields !! lit "totalResults"))
              [sample_article (JStr [])])).
Proof.
  intros query.
  apply (@news_with_articles demo_builtins articles_world
           (plain_raw_news (lit "IHSG")) query articles_fields
           [empty_description_item] [sample_article (JStr [])]).
  - reflexivity.
  - reflexivity.
  - by vm_compute.
  - by vm_compute.
  - by vm_compute.
Defined.

Lemma provider_exception_is_500_witness :
  let r := PostNews (plain_raw_news (lit "IHSG")) in
  let p := news_news_params
             {| q := lit "IHSG"; dari := None; sampai := None;
                nq_bahasa := lit "id"; halaman := 1 |} in
  @app demo_builtins raising_world r = ([NewsCall p], InternalServerError500).
Proof.
  intros r p.
  apply (@provider_exception_is_500 demo_builtins raising_world r p
           (External (lit "connection timed out"))); reflexivity.
Defined.

Lemma unreadable_article_is_500_witness :
  let r := PostAnalyze (plain_raw (Some (lit "Apa kabar pasar?"))) in
  let p := @analyze_news_params demo_builtins null_source_world
             (plain_request (lit "Apa kabar pasar?")) in
  @app demo_builtins null_source_world r
  = ([NewsCall p], InternalServerError500).
Proof.
  intros r p.
  apply (@unreadable_article_is_500 demo_builtins null_source_world r p
           {[ lit "status" := JStr (lit "ok");
              lit "articles" :=
                JArr [JObj {[ lit "title" := JStr (lit "IHSG menguat");
                              lit "source" := JNull ]}] ]}
           [JObj {[ lit "title" := JStr (lit "IHSG menguat");
                    lit "source" := JNull ]}]).
  - reflexivity.
  - reflexivity.
  - by vm_compute.
  - by vm_compute.
  - by vm_compute.
Defined.


Lemma app_status_codes_witness :
  status_of (@app demo_builtins articles_world
               (PostNews (plain_raw_news (lit "IHSG")))).2
  ∈ [200; 422; 500; 502].
Proof.
  apply (@app_status_codes demo_builtins articles_world).
  intros p e He. simpl in He. discriminate He.
Defined.

Lemma news_call_passes_filters_witness :
  ∃ p, (@app demo_builtins quiet_world (PostNews dated_raw_news)).1
       = [NewsCall p]
       ∧ raw_q dated_raw_news = Some (np_q p)
       ∧ np_language p = default (lit "id") (raw_nq_bahasa dated_raw_news)
       ∧ (∀ d, np_from_param p = Some d
               ↔ raw_dari dated_raw_news = Some d ∧ d ≠ [])
       ∧ (∀ d, np_to p = Some d
               ↔ raw_sampai dated_raw_news = Some d ∧ d ≠ []).
Proof.
  apply (@news_call_passes_filters demo_builtins quiet_world dated_raw_news
           {| q := lit "IHSG"; dari := Some (lit "2024-01-01");
              sampai := Some []; nq_bahasa := lit "id"; halaman := 2 |}).
  reflexivity.
Defined.

Lemma profile_horizon_shown_witness :
  profile_text {| risiko := Some (lit "sedang"); horizon_bulan := Some 12;
                  fokus := None |}
  = lit "Profil Investor:" ++ [NL]
    ++ lit "- Risiko: " ++ str_or_dash (Some (lit "sedang")) ++ [NL]
    ++ lit "- Horizon (bulan): " ++ str_of_int 12 ++ [NL]
    ++ lit "- Fokus: " ++ str_or_dash None ++ [NL].
Proof.
  apply (profile_horizon_shown profiled_raw
           {| pertanyaan := lit "Apa kabar pasar?"; tickers := None;
              kata_kunci := None; hari_kebelakang := 14; bahasa := lit "id";
              profil := raw_profil profiled_raw |}
           {| risiko := Some (lit "sedang"); horizon_bulan := Some 12;
              fokus := None |} 12); reflexivity.
Defined.
